(** * Two daily-bar stock screeners: [dragon_back_strategy.py] and
    [volume_bottom_scanner.py]

    A shallow embedding of the per-instrument classification functions
    ([analyze_stock], [analyze_stock_file]), of the ranking step of
    [dragon_back_strategy.main], of [load_stock_names] and of
    [volume_bottom_scanner.main] with its collecting loop, followed by the
    properties of the specification that are settled against them and by
    further properties of the code.

    Modelling conventions.
    - A CSV file read by [pd.read_csv] is a [DataFrame]: its rows are bars
      whose numeric cells are finite numbers, kept as exact rationals [Q]
      (binary rounding and missing cells are not modelled).  A column as a
      whole may be absent (indexing it raises [KeyError]) or left as text by
      the parser (computing with it raises [TypeError]); the read itself
      may raise.
    - Values computed by numpy are [float64]: a rational, an infinity or NaN.
      Division by zero raises nothing there; it yields an infinity or NaN,
      and every comparison with NaN is false.
    - A Python call either returns or raises: [outcome].  [try]/[except] is
      [try_except].
    - [sort_values] runs with pandas' default [kind], quicksort, which
      promises the order of the key and nothing about rows of equal key.
      The functions that sort take the sort as an argument; the statements
      hold for every sort that orders by the key ([sorts_by_score_desc],
      [sorts_by_date]), and insertion sorts show that there are such
      sorts.
    - Strings are strings of bytes, UTF-8: [in] and [startswith] are as in
      Python; [zfill] counts bytes and [strip] knows the whitespace of
      ASCII, which is what Python does on ASCII text such as the codes.
    - The two pools are run in the order of the files: [p.map] returns in
      that order, and for the futures of the scanner the order of the
      files stands for the order in which they complete. *)

From Stdlib Require Import List String Ascii Bool Arith ZArith.
From Stdlib Require Import QArith Qabs Lia Lqa.
From Stdlib Require Import Permutation Sorted.
From Stdlib Require OrderedTypeEx.
Import ListNotations.

(* ================================================================== *)
(** ** Python: exceptions, strings, numbers *)

Module Py.

(** The exception classes the two programs can meet; all of them derive from
    [Exception]. *)
Inductive exn : Type :=
| KeyError | TypeError | ValueError | IndexError | OSError | ParserError.

Inductive outcome (A : Type) : Type :=
| Return (a : A)
| Raise (e : exn).

Arguments Return {A} a.
Arguments Raise {A} e.

Definition bind {A B : Type} (m : outcome A) (k : A -> outcome B) : outcome B :=
  match m with
  | Return a => k a
  | Raise e => Raise e
  end.

(** [try: body except Exception: handler]. *)
Definition try_except {A : Type} (body : outcome A) (handler : exn -> outcome A)
  : outcome A :=
  match body with
  | Return a => Return a
  | Raise e => handler e
  end.

(** *** Strings *)

Local Open Scope string_scope.

(** [os.path.basename]: what follows the last slash. *)
Fixpoint basename_from (candidate p : string) : string :=
  match p with
  | EmptyString => candidate
  | String c rest =>
      if Ascii.eqb c "/" then basename_from rest rest
      else basename_from candidate rest
  end.

Definition basename (p : string) : string := basename_from p p.

(** [s.split(sep)[0]]: what precedes the first separator. *)
Fixpoint split_head (sep : ascii) (s : string) : string :=
  match s with
  | EmptyString => EmptyString
  | String c rest =>
      if Ascii.eqb c sep then EmptyString else String c (split_head sep rest)
  end.

Fixpoint zeros (n : nat) : string :=
  match n with
  | O => EmptyString
  | S k => String "0" (zeros k)
  end.

(** [s.zfill(width)]: zeros on the left, after a leading sign. *)
Definition zfill (width : nat) (s : string) : string :=
  let n := String.length s in
  if Nat.leb width n then s
  else
    match s with
    | String c rest =>
        if Ascii.eqb c "+" || Ascii.eqb c "-"
        then String c (zeros (width - n) ++ rest)
        else zeros (width - n) ++ s
    | EmptyString => zeros (width - n)
    end.

(** [s.startswith(p)]. *)
Definition startswith (s p : string) : bool := String.prefix p s.

(** [needle in s] for two strings. *)
Fixpoint contains (needle s : string) : bool :=
  String.prefix needle s
  || match s with
     | EmptyString => false
     | String _ rest => contains needle rest
     end.

(** *** numpy's float64, idealised: exact rationals with the two infinities
    and NaN (no rounding, no signed zero). *)

Inductive float64 : Type :=
| Fin (q : Q)
| PInf
| NInf
| NaN.

Local Open Scope Q_scope.

Definition Qlt_bool (a b : Q) : bool := negb (Qle_bool b a).

Definition fneg (x : float64) : float64 :=
  match x with
  | Fin q => Fin (- q)
  | PInf => NInf
  | NInf => PInf
  | NaN => NaN
  end.

Definition fabs (x : float64) : float64 :=
  match x with
  | Fin q => Fin (Qabs q)
  | PInf | NInf => PInf
  | NaN => NaN
  end.

Definition fadd (x y : float64) : float64 :=
  match x, y with
  | Fin a, Fin b => Fin (a + b)
  | NaN, _ | _, NaN => NaN
  | PInf, NInf | NInf, PInf => NaN
  | PInf, _ | _, PInf => PInf
  | NInf, _ | _, NInf => NInf
  end.

Definition fsub (x y : float64) : float64 := fadd x (fneg y).

(** The infinity of the sign of [q]; NaN when [q] is zero. *)
Definition signed_inf (q : Q) : float64 :=
  match q ?= 0 with
  | Gt => PInf
  | Lt => NInf
  | Eq => NaN
  end.

Definition fmul (x y : float64) : float64 :=
  match x, y with
  | Fin a, Fin b => Fin (a * b)
  | NaN, _ | _, NaN => NaN
  | PInf, Fin q | Fin q, PInf => signed_inf q
  | NInf, Fin q | Fin q, NInf => signed_inf (- q)
  | PInf, PInf | NInf, NInf => PInf
  | PInf, NInf | NInf, PInf => NInf
  end.

(** numpy division: a zero divisor gives an infinity or NaN and a warning,
    never an exception. *)
Definition fdiv (x y : float64) : float64 :=
  match x, y with
  | Fin a, Fin b => if Qeq_bool b 0 then signed_inf a else Fin (a / b)
  | NaN, _ | _, NaN => NaN
  | Fin _, (PInf | NInf) => Fin 0
  | PInf, Fin b => if Qlt_bool b 0 then NInf else PInf
  | NInf, Fin b => if Qlt_bool b 0 then PInf else NInf
  | (PInf | NInf), (PInf | NInf) => NaN
  end.

(** [x <= y]; false as soon as one side is NaN. *)
Definition fle (x y : float64) : bool :=
  match x, y with
  | NaN, _ | _, NaN => false
  | Fin a, Fin b => Qle_bool a b
  | NInf, _ => true
  | _, PInf => true
  | _, _ => false
  end.

(** [x < y]. *)
Definition flt (x y : float64) : bool :=
  match x, y with
  | NaN, _ | _, NaN => false
  | Fin a, Fin b => Qlt_bool a b
  | NInf, NInf | PInf, PInf => false
  | NInf, _ => true
  | _, PInf => true
  | _, _ => false
  end.

(** [x > y] is [y < x]. *)
Definition fgt (x y : float64) : bool := flt y x.

(** Round half to even to a whole number. *)
Definition rint (q : Q) : Z :=
  let n := Qnum q in
  let d := Zpos (Qden q) in
  let lo := (n / d)%Z in
  let r := (n mod d)%Z in
  match (2 * r ?= d)%Z with
  | Lt => lo
  | Gt => (lo + 1)%Z
  | Eq => if Z.even lo then lo else (lo + 1)%Z
  end.

(** [round(x, 2)]: numpy scales by 100, rounds half to even, scales back. *)
Definition round2 (x : float64) : float64 :=
  match x with
  | Fin q => Fin (rint (q * 100) # 100)
  | _ => x
  end.

(** *** Insertion sort, the reference for what a sort may return: [b] goes
    before the first element [x] of the sorted list with [before b x]. *)

Fixpoint insert_by {A : Type} (before : A -> A -> bool) (b : A)
    (sorted : list A) : list A :=
  match sorted with
  | [] => [b]
  | x :: t => if before b x then b :: x :: t else x :: insert_by before b t
  end.

Definition insertion_sort {A : Type} (before : A -> A -> bool) (l : list A)
  : list A :=
  fold_right (insert_by before) [] l.

(** [c.isspace()] for a character of ASCII: tab to carriage return, the
    four separators 28 to 31, and the space. *)
Definition isspace (c : ascii) : bool :=
  let n := nat_of_ascii c in
  (Nat.leb 9 n && Nat.leb n 13) || (Nat.leb 28 n && Nat.leb n 32).

(** [s.lstrip()], [s.rstrip()] and [s.strip()], for the whitespace of
    ASCII. *)
Fixpoint lstrip (s : string) : string :=
  match s with
  | EmptyString => EmptyString
  | String c rest => if isspace c then lstrip rest else s
  end.

Fixpoint rstrip (s : string) : string :=
  match s with
  | EmptyString => EmptyString
  | String c rest =>
      match rstrip rest with
      | EmptyString => if isspace c then EmptyString else String c EmptyString
      | kept => String c kept
      end
  end.

Definition strip (s : string) : string := rstrip (lstrip s).

(** Every element of the list is [lt] the next one. *)
Fixpoint ascending {A : Type} (lt : A -> A -> bool) (l : list A) : bool :=
  match l with
  | [] => true
  | x :: t =>
      match t with
      | [] => true
      | y :: _ => lt x y && ascending lt t
      end
  end.

End Py.

Declare Scope py_scope.
Delimit Scope py_scope with py.
Notation "x <- m ;; k" := (Py.bind m (fun x => k))
  (at level 61, m at next level, right associativity) : py_scope.

(* ================================================================== *)
(** ** pandas: the frame operations the two programs call *)

Module Pandas.
Import Py.
Local Open Scope nat_scope.
Local Open Scope py_scope.

(** The numeric columns the programs index: '开盘', '收盘', '成交量'. *)
Inductive column : Type := Open | Close | Volume.

(** What [read_csv] made of a column: not in the file, left as text (some
    cell did not parse as a number), or numbers. *)
Inductive dtype : Type := Absent | Object | Numeric.

(** One daily bar; [date] is the '日期' cell. *)
Record Bar : Type := mkBar {
  date : string;
  open : Q;
  close : Q;
  volume : Q
}.

(** A frame: rows labelled [first_label], [first_label + 1], ... (a
    [RangeIndex]); the numbers held by a bar mean something only for the
    columns whose dtype is [Numeric]. *)
Record DataFrame : Type := mkFrame {
  first_label : nat;
  rows : list Bar;
  date_col : bool;
  open_dtype : dtype;
  close_dtype : dtype;
  volume_dtype : dtype
}.

Definition dtype_of (df : DataFrame) (c : column) : dtype :=
  match c with
  | Open => open_dtype df
  | Close => close_dtype df
  | Volume => volume_dtype df
  end.

Definition field (c : column) (b : Bar) : Q :=
  match c with
  | Open => open b
  | Close => close b
  | Volume => volume b
  end.

(** A frame as [read_csv] gives it when every column is there and numeric. *)
Definition frame_of (bars : list Bar) : DataFrame :=
  mkFrame 0 bars true Numeric Numeric Numeric.

(** [len(df)]. *)
Definition len (df : DataFrame) : nat := List.length (rows df).

(** The last [n] elements: the slice [[-n:]]. *)
Definition lastn {A : Type} (n : nat) (l : list A) : list A :=
  skipn (List.length l - n) l.

(** [df.tail(n)]: the last [n] rows, under the labels they had. *)
Definition tail (n : nat) (df : DataFrame) : DataFrame :=
  mkFrame (first_label df + (len df - n)) (lastn n (rows df))
          (date_col df) (open_dtype df) (close_dtype df) (volume_dtype df).

(** [df.iloc[-k]] for [k >= 1]. *)
Definition iloc_neg (df : DataFrame) (k : nat) : outcome Bar :=
  if (k <=? len df) && (1 <=? k) then
    match nth_error (rows df) (len df - k) with
    | Some b => Return b
    | None => Raise IndexError
    end
  else Raise IndexError.

(** The row [df.loc[label]] refers to. *)
Definition loc (df : DataFrame) (label : nat) : outcome Bar :=
  if first_label df <=? label then
    match nth_error (rows df) (label - first_label df) with
    | Some b => Return b
    | None => Raise KeyError
    end
  else Raise KeyError.

(** A value taken out of a frame: a number, or text. *)
Inductive scalar : Type :=
| Flt (x : float64)
| Text.

(** [row[c]] for a row of [df]. *)
Definition getitem (df : DataFrame) (row : Bar) (c : column) : outcome scalar :=
  match dtype_of df c with
  | Absent => Raise KeyError
  | Object => Return Text
  | Numeric => Return (Flt (Fin (field c row)))
  end.

(** Arithmetic and ordering against a number raise [TypeError] on text. *)
Definition num (x : scalar) : outcome float64 :=
  match x with
  | Flt v => Return v
  | Text => Raise TypeError
  end.

(** A column taken out of a frame, with the label of its first value. *)
Inductive Series : Type :=
| NumSeries (first : nat) (values : list Q)
| ObjSeries (first : nat) (size : nat).

(** [df[c]]. *)
Definition getcol (df : DataFrame) (c : column) : outcome Series :=
  match dtype_of df c with
  | Absent => Raise KeyError
  | Object => Return (ObjSeries (first_label df) (len df))
  | Numeric => Return (NumSeries (first_label df) (map (field c) (rows df)))
  end.

(** [s.iloc[-n:]]. *)
Definition series_lastn (n : nat) (s : Series) : Series :=
  match s with
  | NumSeries first values =>
      NumSeries (first + (List.length values - n)) (lastn n values)
  | ObjSeries first size => ObjSeries (first + (size - n)) (Nat.min n size)
  end.

(** Position of the first greatest value, scanning left to right with the
    best value so far. *)
Fixpoint argmax_from (best_i : nat) (best : Q) (i : nat) (l : list Q) : nat :=
  match l with
  | [] => best_i
  | x :: t =>
      if Qlt_bool best x then argmax_from i x (S i) t
      else argmax_from best_i best (S i) t
  end.

Definition argmax (l : list Q) : option nat :=
  match l with
  | [] => None
  | x :: t => Some (argmax_from 0 x 1 t)
  end.

(** [s.idxmax()]: the label of the first greatest value. *)
Definition idxmax (s : Series) : outcome nat :=
  match s with
  | NumSeries first values =>
      match argmax values with
      | Some i => Return (first + i)
      | None => Raise ValueError
      end
  | ObjSeries _ _ => Raise TypeError
  end.

Definition qmax (a b : Q) : Q := if Qlt_bool a b then b else a.
Definition qmin (a b : Q) : Q := if Qlt_bool b a then b else a.

(** [s.max()] and [s.min()]: NaN on an empty column; on text, a text. *)
Definition series_max (s : Series) : scalar :=
  match s with
  | NumSeries _ [] => Flt NaN
  | NumSeries _ (x :: t) => Flt (Fin (fold_left qmax t x))
  | ObjSeries _ _ => Text
  end.

Definition series_min (s : Series) : scalar :=
  match s with
  | NumSeries _ [] => Flt NaN
  | NumSeries _ (x :: t) => Flt (Fin (fold_left qmin t x))
  | ObjSeries _ _ => Text
  end.

Definition qsum (l : list Q) : Q := fold_left Qplus l 0%Q.

(** [s.rolling(w).mean().iloc[-1]]: the mean of the last [w] values, NaN
    when there are fewer than [w]. *)
Definition rolling_mean_last (w : nat) (s : Series) : outcome float64 :=
  match s with
  | NumSeries _ values =>
      match values with
      | [] => Raise IndexError
      | _ :: _ =>
          if List.length values <? w then Return NaN
          else Return (Fin (qsum (lastn w values) / inject_Z (Z.of_nat w))%Q)
      end
  | ObjSeries _ _ => Raise TypeError
  end.

End Pandas.

(* ================================================================== *)
(** ** dragon_back_strategy.py *)

Module DragonBack.
Import Py Pandas.
Local Open Scope string_scope.
Local Open Scope nat_scope.
Local Open Scope py_scope.

(** The four values of [advice]: "待观察", "试错性买入 (轻仓)",
    "重点关注 (半仓进攻)", "一击必中 (核心重仓)". *)
Inductive advice_label : Type :=
| WaitAndSee
| TrialLightEntry
| PriorityHalfPosition
| SureShotCorePosition.

(** The dictionary [analyze_stock] returns. *)
Record Verdict : Type := mkVerdict {
  code : string;
  latest_close : float64;
  support_price : float64;
  signal_score : Z;
  operation_advice : advice_label
}.

(** [os.path.basename(file_path).split('.')[0]]. *)
Definition code_of (file_path : string) : string :=
  split_head "." (basename file_path).

(** The body of the [try] block of [analyze_stock]; [csv] is what
    [pd.read_csv(file_path)] does. *)
Definition analyze_stock_body (file_path : string) (csv : outcome DataFrame)
  : outcome (option Verdict) :=
  df <- csv ;;
  if len df <? 30 then Return None else
  let code := code_of file_path in
  if startswith code "30" || startswith code "688" || contains "ST" code
  then Return None else
  last_row <- iloc_neg df 1 ;;
  close_cell <- getitem df last_row Close ;;
  close_price <- num close_cell ;;
  if negb (fle (Fin 5) close_price && fle close_price (Fin 20))
  then Return None else
  let recent_20 := tail 20 df in
  recent_vol <- getcol recent_20 Volume ;;
  max_vol_idx <- idxmax recent_vol ;;
  start_row <- loc df max_vol_idx ;;
  start_cell <- getitem df start_row Open ;;
  start_price <- num start_cell ;;
  let price_diff := fdiv (fabs (fsub close_price start_price)) start_price in
  let is_at_support := fle price_diff (Fin (3 # 100)) in
  last_vol_cell <- getitem df last_row Volume ;;
  last_vol <- num last_vol_cell ;;
  ref_vol_cell <- getitem df start_row Volume ;;
  ref_vol <- num ref_vol_cell ;;
  let vol_ratio := fdiv last_vol ref_vol in
  let is_shrinking := flt vol_ratio (Fin (1 # 2)) in
  graded <-
    (if is_at_support && is_shrinking then
       recent_close <- getcol recent_20 Close ;;
       ma5 <- rolling_mean_last 5 recent_close ;;
       let g1 :=
         if fgt close_price ma5 then (70 + 20, PriorityHalfPosition)%Z
         else (70%Z, TrialLightEntry) in
       prev_row <- iloc_neg df 2 ;;
       prev_vol_cell <- getitem df prev_row Volume ;;
       prev_vol <- num prev_vol_cell ;;
       Return (if fgt last_vol prev_vol
               then (fst g1 + 10, SureShotCorePosition)%Z
               else g1)
     else Return (0%Z, WaitAndSee)) ;;
  let score := fst graded in
  let advice := snd graded in
  if (70 <=? score)%Z then
    Return (Some (mkVerdict code close_price (round2 start_price) score advice))
  else Return None.

(** [analyze_stock]: the body under [try], and [except Exception: return
    None]. *)
Definition analyze_stock (file_path : string) (csv : outcome DataFrame)
  : outcome (option Verdict) :=
  try_except (analyze_stock_body file_path csv) (fun _ => Return None).

(** A row of [final_df]: a verdict and the name joined to it (none when
    the code is not in the names file). *)
Record OutRow : Type := mkOutRow {
  verdict : Verdict;
  name : option string
}.

Definition score_of (r : OutRow) : Z := signal_score (verdict r).

(** [final_df.merge(names_df, on='code', how='left')]: every verdict, in
    order, once per names row of its code. *)
Definition merge (results : list Verdict) (names_df : list (string * string))
  : list OutRow :=
  flat_map
    (fun v =>
       match filter (fun p => String.eqb (fst p) (code v)) names_df with
       | [] => [mkOutRow v None]
       | matches => map (fun p => mkOutRow v (Some (snd p))) matches
       end)
    results.

(** [.head(5)]. *)
Definition head5 {A : Type} (l : list A) : list A := firstn 5 l.

(** [p.map(analyze_stock, stock_files)]: the results in the order of the
    files; an exception of a call is raised again. *)
Fixpoint pool_map (files : list (string * outcome DataFrame))
  : outcome (list (option Verdict)) :=
  match files with
  | [] => Return []
  | (file_path, csv) :: rest =>
      r <- analyze_stock file_path csv ;;
      rs <- pool_map rest ;;
      Return (r :: rs)
  end.

Fixpoint not_none {A : Type} (l : list (option A)) : list A :=
  match l with
  | [] => []
  | Some a :: t => a :: not_none t
  | None :: t => not_none t
  end.

(** [main], up to the frame it saves: nothing is saved when the names file
    is missing or no instrument qualifies.  [sort_values] is
    [sort_values(by='signal_score', ascending=False)] with pandas' default
    [kind='quicksort']; [names_file] is the content of the names file, code
    and name per row. *)
Definition main (sort_values : list OutRow -> list OutRow)
    (stock_files : list (string * outcome DataFrame))
    (names_file : option (list (string * string)))
  : outcome (option (list OutRow)) :=
  results <- pool_map stock_files ;;
  let results := not_none results in
  match names_file with
  | None => Return None
  | Some names =>
      let names_df := map (fun p => (zfill 6 (fst p), snd p)) names in
      match results with
      | [] => Return None
      | _ :: _ =>
          let final_df := merge results names_df in
          Return (Some (head5 (sort_values final_df)))
      end
  end.

(** A sort of the rows by decreasing score that keeps rows of equal score
    in the order they came in. *)
Definition stable_sort_desc (l : list OutRow) : list OutRow :=
  insertion_sort (fun r x => (score_of x <=? score_of r)%Z) l.


End DragonBack.

(* ================================================================== *)
(** ** volume_bottom_scanner.py *)

Module VolumeBottom.
Import Py Pandas.
Local Open Scope string_scope.
Local Open Scope nat_scope.
Local Open Scope py_scope.

Definition PRICE_MIN : Q := 5.
Definition PRICE_MAX : Q := 15.
Definition VOLUME_PERIOD : nat := 120.
Definition PRICE_LOW_PERIOD : nat := 40.
Definition VOLUME_SHRINK_RATIO : Q := 3 # 100.
Definition PRICE_LOW_RANGE_RATIO : Q := 3 # 100.

(** A value of [STOCK_NAMES_DICT]: the 'Name' cell of the names file, a
    string, or the float NaN pandas puts for an empty cell. *)
Inductive name_value : Type :=
| NameStr (s : string)
| NameNaN.

(** [STOCK_NAMES_DICT], code to name. *)
Definition names_dict : Type := list (string * name_value).

(** The default of the lookup. *)
Definition UNKNOWN_NAME : string := "未知名称".

(** [d.get(key, default)]. *)
Fixpoint dict_get (d : names_dict) (key : string) (default : name_value)
  : name_value :=
  match d with
  | [] => default
  | (k, v) :: rest => if String.eqb k key then v else dict_get rest key default
  end.

(** [needle in name]: a float is not iterable. *)
Definition name_contains (needle : string) (name : name_value) : outcome bool :=
  match name with
  | NameStr s => Return (contains needle s)
  | NameNaN => Raise TypeError
  end.

(** The dictionary [analyze_stock_file] returns. *)
Record Verdict : Type := mkVerdict {
  Code : string;
  Name : name_value;
  Latest_Close : float64;
  Latest_Volume : float64;
  Max_Volume_120d : float64;
  Low_Price_40d_Threshold : float64
}.

(** [os.path.basename(file_path).split('.')[0].zfill(6)]. *)
Definition code_of (file_path : string) : string :=
  zfill 6 (split_head "." (basename file_path)).

(** [df.iloc[-n:]]: the last [n] rows. *)
Definition iloc_lastn (n : nat) (df : DataFrame) : DataFrame := tail n df.

(** [df.sort_values(by=DATE_COL).reset_index(drop=True)], given what the
    sort makes of the rows. *)
Definition sort_by_date (sort_values : list Bar -> list Bar) (df : DataFrame)
  : outcome DataFrame :=
  if date_col df then
    Return (mkFrame 0 (sort_values (rows df)) true
                    (open_dtype df) (close_dtype df) (volume_dtype df))
  else Raise KeyError.

(** Part B of [analyze_stock_file], the body of its [try] block. *)
Definition technical_screen (sort_values : list Bar -> list Bar)
    (code : string) (name : name_value) (csv : outcome DataFrame)
  : outcome (option Verdict) :=
  df <- csv ;;
  df <- sort_by_date sort_values df ;;
  if len df <? Nat.max VOLUME_PERIOD PRICE_LOW_PERIOD then Return None else
  latest_data <- iloc_neg df 1 ;;
  latest_close_cell <- getitem df latest_data Close ;;
  latest_volume_cell <- getitem df latest_data Volume ;;
  latest_close <- num latest_close_cell ;;
  if negb (fle (Fin PRICE_MIN) latest_close && fle latest_close (Fin PRICE_MAX))
  then Return None else
  let history_df := iloc_lastn (Nat.max VOLUME_PERIOD PRICE_LOW_PERIOD) df in
  history_vol <- getcol history_df Volume ;;
  let max_volume_cell := series_max (series_lastn VOLUME_PERIOD history_vol) in
  max_volume <- num max_volume_cell ;;
  latest_volume <- num latest_volume_cell ;;
  if fgt latest_volume (fmul max_volume (Fin VOLUME_SHRINK_RATIO))
  then Return None else
  history_close <- getcol history_df Close ;;
  let price_history := series_lastn PRICE_LOW_PERIOD history_close in
  low_price <- num (series_min price_history) ;;
  high_price <- num (series_max price_history) ;;
  let price_range := fsub high_price low_price in
  let low_threshold :=
    fadd low_price (fmul (Fin PRICE_LOW_RANGE_RATIO) price_range) in
  if fgt latest_close low_threshold then Return None else
  Return (Some (mkVerdict code name latest_close latest_volume
                          max_volume low_threshold)).

(** [analyze_stock_file]: part A (the rules on code and name) stands before
    the [try]; part B is under it, with [except KeyError] (a message, then
    [None]) and [except Exception] ([None]). *)
Definition analyze_stock_file (sort_values : list Bar -> list Bar)
    (STOCK_NAMES_DICT : names_dict) (file_path : string)
    (csv : outcome DataFrame)
  : outcome (option Verdict) :=
  let code := code_of file_path in
  let name := dict_get STOCK_NAMES_DICT code (NameStr UNKNOWN_NAME) in
  if startswith code "30" then Return None else
  marked <-
    (st <- name_contains "ST" name ;;
     if st then Return true else
     pt <- name_contains "PT" name ;;
     if pt then Return true else name_contains "*" name) ;;
  if marked then Return None else
  if negb (startswith code "60" || startswith code "00") then Return None else
  try_except (technical_screen sort_values code name csv)
    (fun e =>
       match e with
       | KeyError => Return None
       | _ => Return None
       end).

(** A sort of the rows by date that keeps rows of equal date in the order
    they came in. *)
Definition stable_sort_by_date (l : list Bar) : list Bar :=
  insertion_sort (fun b x => String.leb (date b) (date x)) l.


End VolumeBottom.

(* ================================================================== *)
(** ** The batch loop of volume_bottom_scanner.py *)

Module VolumeBottomBatch.
Import Py Pandas VolumeBottom.
Local Open Scope string_scope.
Local Open Scope py_scope.

(** The comprehension that builds [filtered_files] in [main]. *)
Definition filtered_files (all_files : list (string * outcome DataFrame))
  : list (string * outcome DataFrame) :=
  filter
    (fun f =>
       startswith (code_of (fst f)) "60" || startswith (code_of (fst f)) "00")
    all_files.

(** The loop over the futures: [future.result()] raises again what the call
    raised; a verdict is appended. *)
Fixpoint collect (sort_values : list Bar -> list Bar)
    (STOCK_NAMES_DICT : names_dict) (files : list (string * outcome DataFrame))
  : outcome (list Verdict) :=
  match files with
  | [] => Return []
  | (file_path, csv) :: rest =>
      result <- analyze_stock_file sort_values STOCK_NAMES_DICT file_path csv ;;
      results <- collect sort_values STOCK_NAMES_DICT rest ;;
      Return (match result with
              | Some v => v :: results
              | None => results
              end)
  end.

Definition scan (sort_values : list Bar -> list Bar)
    (STOCK_NAMES_DICT : names_dict)
    (all_files : list (string * outcome DataFrame))
  : outcome (list Verdict) :=
  collect sort_values STOCK_NAMES_DICT (filtered_files all_files).

End VolumeBottomBatch.

(* ================================================================== *)
(** ** [load_stock_names] and [main] of volume_bottom_scanner.py *)

Module VolumeBottomMain.
Import Py Pandas VolumeBottom VolumeBottomBatch.
Local Open Scope string_scope.
Local Open Scope nat_scope.
Local Open Scope py_scope.

(** The names file as [read_csv] gives it: how many columns it has and,
    row by row, the first cell as [astype(str)] prints it and the second
    cell. *)
Record NamesFrame : Type := mkNames {
  n_columns : nat;
  name_rows : list (string * name_value)
}.

(** [d[key] = value]: the new entry hides an older one of the same key. *)
Definition dict_set (d : names_dict) (key : string) (value : name_value)
  : names_dict :=
  (key, value) :: d.

(** [names_df.set_index('Code')['Name'].to_dict()]: the rows are entered
    from the first to the last. *)
Definition to_dict (rows : list (string * name_value)) : names_dict :=
  fold_left (fun d row => dict_set d (fst row) (snd row)) rows [].

(** The body of the [try] block of [load_stock_names]: renaming the columns
    of a frame that has not two of them raises [ValueError].  [str.strip]
    and [str.zfill] of pandas are taken as the methods of Python's [str],
    applied cell by cell (an older pandas pads a signed code before its
    sign). *)
Definition load_stock_names_body (names_csv : outcome NamesFrame)
  : outcome names_dict :=
  names_df <- names_csv ;;
  if n_columns names_df =? 2 then
    let coded :=
      map (fun row => (zfill 6 (strip (fst row)), snd row))
          (name_rows names_df) in
    Return (to_dict coded)
  else Raise ValueError.

(** [load_stock_names]: what [STOCK_NAMES_DICT] holds after the call; it is
    left empty when the body raises. *)
Definition load_stock_names (names_csv : outcome NamesFrame)
  : outcome names_dict :=
  try_except (load_stock_names_body names_csv) (fun _ => Return []).

(** [main], up to the rows it writes: [stock_data] is the list of the CSV
    files of the data directory, none when the directory is missing.
    Nothing is written without a directory or without a file in it;
    otherwise a file is written, empty when no stock passes. *)
Definition main (sort_values : list Bar -> list Bar)
    (stock_data : option (list (string * outcome DataFrame)))
    (names_csv : outcome NamesFrame)
  : outcome (option (list Verdict)) :=
  match stock_data with
  | None => Return None
  | Some [] => Return None
  | Some all_files =>
      STOCK_NAMES_DICT <- load_stock_names names_csv ;;
      results <- scan sort_values STOCK_NAMES_DICT all_files ;;
      Return (Some results)
  end.

End VolumeBottomMain.

(* ================================================================== *)
(** ** The notions the statements below are written with *)

Module Notions.
Import Py Pandas.
Local Open Scope nat_scope.

Definition no_bar : Bar := mkBar EmptyString 0 0 0.

(** The latest bar and the one before it. *)
Definition latest (bars : list Bar) : Bar := last bars no_bar.
Definition previous (bars : list Bar) : Bar :=
  nth (List.length bars - 2) bars no_bar.

(** The trailing [n] bars. *)
Definition window (n : nat) (bars : list Bar) : list Bar := lastn n bars.

(** [i] is the position of the first greatest value of [l]. *)
Definition is_first_max (l : list Q) (i : nat) : Prop :=
  i < List.length l
  /\ (forall j, j < List.length l -> (nth j l 0 <= nth i l 0)%Q)
  /\ (forall j, j < i -> (nth j l 0 < nth i l 0)%Q).

(** [m] is the greatest (the least) value of [l]. *)
Definition is_max (m : Q) (l : list Q) : Prop :=
  In m l /\ forall x, In x l -> (x <= m)%Q.

(** [ref] is the reference-volume day of [bars]: the first bar of greatest
    volume among the trailing 20. *)
Definition reference_day (bars : list Bar) (ref : Bar) : Prop :=
  exists i,
    is_first_max (map volume (window 20 bars)) i
    /\ nth_error (window 20 bars) i = Some ref.

(** |latest_close - support| / support, and latest_volume /
    reference_day_volume, as numpy computes them. *)
Definition proximity (latest_close support : Q) : float64 :=
  fdiv (fabs (fsub (Fin latest_close) (Fin support))) (Fin support).
Definition volume_ratio (latest_volume reference_volume : Q) : float64 :=
  fdiv (Fin latest_volume) (Fin reference_volume).

(** The 5-day simple moving average of close at the latest bar. *)
Definition sma5 (bars : list Bar) : Q :=
  (qsum (map close (window 5 bars)) / 5)%Q.

(** The two bonus conditions. *)
Definition ma_bonus (bars : list Bar) : Prop :=
  (sma5 bars < close (latest bars))%Q.
Definition reexpansion_bonus (bars : list Bar) : Prop :=
  (volume (previous bars) < volume (latest bars))%Q.

(** Every numeric column of the frame parsed as numbers. *)
Definition numeric (df : DataFrame) : Prop :=
  open_dtype df = Numeric /\ close_dtype df = Numeric
  /\ volume_dtype df = Numeric.

(** The score ladder of [analyze_stock]: 70, 20 more when the
    moving-average bonus applies, 10 more when the re-expansion bonus
    applies. *)
Definition ladder (ma reexpansion : bool) : Z * DragonBack.advice_label :=
  let g1 :=
    if ma then (90%Z, DragonBack.PriorityHalfPosition)
    else (70%Z, DragonBack.TrialLightEntry) in
  if reexpansion then ((fst g1 + 10)%Z, DragonBack.SureShotCorePosition)
  else g1.

(** The rules on the code of [analyze_stock]. *)
Definition code_excluded_A (code : string) : bool :=
  startswith code "30" || startswith code "688" || contains "ST" code.

(** What [analyze_stock] comes to on a well-formed series of at least 30
    bars whose reference-volume day is [ref]. *)
Definition screen_A (file_path : string) (bars : list Bar) (ref : Bar)
  : option DragonBack.Verdict :=
  let c := close (latest bars) in
  if code_excluded_A (DragonBack.code_of file_path) then None
  else if negb (Qle_bool 5 c && Qle_bool c 20) then None
  else if fle (proximity c (open ref)) (Fin (3 # 100))
          && flt (volume_ratio (volume (latest bars)) (volume ref))
                 (Fin (1 # 2))
  then
    let g :=
      ladder (Qlt_bool (sma5 bars) c)
             (Qlt_bool (volume (previous bars)) (volume (latest bars))) in
    Some (DragonBack.mkVerdict (DragonBack.code_of file_path) (Fin c)
            (round2 (Fin (open ref))) (fst g) (snd g))
  else None.

(** The greatest and the least value of a non-empty list. *)
Definition greatest (l : list Q) : Q :=
  match l with
  | [] => 0
  | x :: t => fold_left qmax t x
  end.
Definition least (l : list Q) : Q :=
  match l with
  | [] => 0
  | x :: t => fold_left qmin t x
  end.

(** The date column is there, close and volume parsed as numbers. *)
Definition numeric_B (df : DataFrame) : Prop :=
  date_col df = true /\ close_dtype df = Numeric
  /\ volume_dtype df = Numeric.

(** What part B of [analyze_stock_file] comes to on a well-formed series
    of at least 120 bars, sorted by date. *)
Definition screen_B (code : string) (name : VolumeBottom.name_value)
    (bars : list Bar) : option VolumeBottom.Verdict :=
  let c := close (latest bars) in
  let v := volume (latest bars) in
  let max_volume := greatest (map volume (window 120 bars)) in
  let low := least (map close (window 40 bars)) in
  let high := greatest (map close (window 40 bars)) in
  let low_threshold :=
    (low + VolumeBottom.PRICE_LOW_RANGE_RATIO * (high - low))%Q in
  if negb (Qle_bool VolumeBottom.PRICE_MIN c
           && Qle_bool c VolumeBottom.PRICE_MAX)
  then None
  else if Qlt_bool (max_volume * VolumeBottom.VOLUME_SHRINK_RATIO) v then None
  else if Qlt_bool low_threshold c then None
  else Some (VolumeBottom.mkVerdict code name (Fin c) (Fin v)
               (Fin max_volume) (Fin low_threshold)).

(** The rules of part A of [analyze_stock_file] on a name that is a
    string. *)
Definition name_marked (s : string) : bool :=
  contains "ST" s || contains "PT" s || contains "*" s.


(** A bar with its volume counted in another unit, [k] times the number
    (lots for shares, say). *)
Definition in_volume_unit (k : Q) (b : Bar) : Bar :=
  mkBar (date b) (open b) (close b) (k * volume b).

(** What a sort of pandas guarantees whatever its [kind]: the rows come
    back, in the order of the key; nothing is promised about rows of equal
    key under the default, quicksort. *)
Definition sorts_by_score_desc
    (sort_values : list DragonBack.OutRow -> list DragonBack.OutRow) : Prop :=
  forall l,
    Permutation l (sort_values l)
    /\ StronglySorted
         (fun a b => (DragonBack.score_of b <= DragonBack.score_of a)%Z)
         (sort_values l).

Definition sorts_by_date (sort_values : list Bar -> list Bar) : Prop :=
  forall l,
    Permutation l (sort_values l)
    /\ StronglySorted (fun a b => String.leb (date a) (date b) = true)
         (sort_values l).

End Notions.

(* ================================================================== *)
(** ** Sample inputs *)

Module Samples.
Import Py Pandas.
Local Open Scope string_scope.
Local Open Scope nat_scope.

Definition digit (n : nat) : ascii := ascii_of_nat (48 + n).

(** A date for day [i] of a series; dates of different days differ and
    order as the days do. *)
Definition day (i : nat) : string :=
  "2024-d" ++ String (digit (i / 100))
                (String (digit ((i / 10) mod 10))
                   (String (digit (i mod 10)) EmptyString)).

(** Thirty bars: 28 at 10.00 with volume 1000, then a bar of volume
    [prev_volume], then the latest bar, closing at [last_close] on volume
    [last_volume]. *)
Definition thirty_bars (last_close last_volume prev_volume : Q) : list Bar :=
  map (fun i => mkBar (day i) 10 10 1000) (seq 0 28)
  ++ [mkBar (day 28) 10 10 prev_volume;
      mkBar (day 29) 10 last_close last_volume].

Definition bars_70 : list Bar := thirty_bars 10 400 450.
Definition bars_80 : list Bar := thirty_bars 10 400 300.
Definition bars_90 : list Bar := thirty_bars (101 # 10) 400 450.
Definition bars_100 : list Bar := thirty_bars (101 # 10) 400 300.


(** The verdict [analyze_stock] returns for file 600000 on these series. *)
Definition verdict_scored (last_close : Q) (score : Z)
    (advice : DragonBack.advice_label) : DragonBack.Verdict :=
  DragonBack.mkVerdict "600000" (Fin last_close) (Fin (1000 # 100)) score
    advice.

Definition verdict_70 : DragonBack.Verdict :=
  verdict_scored 10 70 DragonBack.TrialLightEntry.
Definition verdict_80 : DragonBack.Verdict :=
  verdict_scored 10 80 DragonBack.SureShotCorePosition.
Definition verdict_90 : DragonBack.Verdict :=
  verdict_scored (101 # 10) 90 DragonBack.PriorityHalfPosition.
Definition verdict_100 : DragonBack.Verdict :=
  verdict_scored (101 # 10) 100 DragonBack.SureShotCorePosition.

(** Thirty bars that opened at 0 and closed at 10.00, the latest on a
    volume of 400 after 1000 on the days before. *)
Definition zero_open_bars : list Bar :=
  map (fun i => mkBar (day i) 0 10 1000) (seq 0 29)
  ++ [mkBar (day 29) 0 10 400].

Definition zero_open_ref : Bar := mkBar (day 10) 0 10 1000.

(** The same series with its first bar missing. *)
Definition bars_29 : list Bar := List.tl bars_70.




(** 120 bars closing at 6.00: a first day of volume 1000, then volume 10. *)
Definition bars_120 : list Bar :=
  map (fun i => mkBar (day i) 6 6 (if i =? 0 then 1000 else 10)) (seq 0 120).

Definition bars_119 : list Bar := List.tl bars_120.



(** The verdict [analyze_stock_file] returns for file 600000 on
    [bars_120] when the names dictionary is empty. *)
Definition verdict_120 : VolumeBottom.Verdict :=
  VolumeBottom.mkVerdict "600000"
    (VolumeBottom.NameStr VolumeBottom.UNKNOWN_NAME)
    (Fin 6) (Fin 10) (Fin 1000) (Fin (600 # 100)).

(** The row [main] of Profile A saves for file 5.csv holding [bars_70]:
    the code is the file name, and no name is joined to it. *)
Definition unnamed_row_5 : DragonBack.OutRow :=
  DragonBack.mkOutRow
    (DragonBack.mkVerdict "5" (Fin 10) (Fin (1000 # 100)) 70
       DragonBack.TrialLightEntry)
    None.

(** A names file that marks 600000 as a special-treatment stock, and a
    names dictionary whose name for 600000 is an empty cell. *)
Definition st_names_file : list (string * string) := [("600000", "ST Alpha")].
Definition nan_names : VolumeBottom.names_dict :=
  [("600000", VolumeBottom.NameNaN)].

End Samples.

(* ================================================================== *)
(** ** Lists: the trailing slice *)

Import Py Pandas Notions Samples.
Local Open Scope nat_scope.

Section TrailingSlice.
Context {A B : Type}.
Implicit Types (l : list A) (n m i : nat).

Lemma lastn_length n l : List.length (lastn n l) = Nat.min n (List.length l).
Proof. unfold lastn. rewrite length_skipn. lia. Qed.

Lemma lastn_lastn m n l : m <= n -> lastn m (lastn n l) = lastn m l.
Proof.
  intros H. unfold lastn. rewrite skipn_skipn, length_skipn. f_equal. lia.
Qed.

Lemma lastn_map (f : A -> B) n l : lastn n (map f l) = map f (lastn n l).
Proof. unfold lastn. now rewrite skipn_map, length_map. Qed.

Lemma nth_error_lastn n l i :
  nth_error (lastn n l) i = nth_error l (List.length l - n + i).
Proof. unfold lastn. apply nth_error_skipn. Qed.

Lemma In_lastn n l x : In x (lastn n l) -> In x l.
Proof.
  unfold lastn. intros H.
  rewrite <- (firstn_skipn (List.length l - n) l). apply in_or_app. now right.
Qed.

Lemma nth_error_last l d :
  l <> [] -> nth_error l (List.length l - 1) = Some (last l d).
Proof.
  intros H. destruct (exists_last H) as (l' & a & ->).
  rewrite last_last, length_app, nth_error_app2; cbn; [|lia].
  replace (_ - _) with 0 by lia. reflexivity.
Qed.

End TrailingSlice.

(* ================================================================== *)
(** ** Numbers: the boolean tests against the order of Q *)

Lemma Qlt_bool_iff (a b : Q) : Qlt_bool a b = true <-> (a < b)%Q.
Proof.
  unfold Qlt_bool. rewrite negb_true_iff.
  split.
  - intros H. apply Qnot_le_lt. intros Hle.
    apply Qle_bool_iff in Hle. congruence.
  - intros H. destruct (Qle_bool b a) eqn:E; [|reflexivity].
    apply Qle_bool_iff in E. exfalso. apply (Qlt_not_le _ _ H E).
Qed.

Lemma Qlt_bool_false_iff (a b : Q) : Qlt_bool a b = false <-> (b <= a)%Q.
Proof.
  unfold Qlt_bool. rewrite negb_false_iff. apply Qle_bool_iff.
Qed.







(** Two greatest values of one list are equal as numbers. *)
Lemma is_max_unique (l : list Q) (m m' : Q) :
  is_max m l -> is_max m' l -> (m == m')%Q.
Proof.
  intros [Hin Hub] [Hin' Hub']. apply Qle_antisym; auto.
Qed.


(* ================================================================== *)
(** ** [idxmax]: the first greatest value *)

(** The scan keeps the first greatest value of what it has read. *)
Lemma argmax_from_first_max (t pre : list Q) (best_i : nat) (best : Q) :
  best_i < List.length pre ->
  nth best_i pre 0%Q = best ->
  (forall j, j < List.length pre -> (nth j pre 0 <= best)%Q) ->
  (forall j, j < best_i -> (nth j pre 0 < best)%Q) ->
  is_first_max (pre ++ t) (argmax_from best_i best (List.length pre) t).
Proof.
  revert pre best_i best.
  induction t as [|x t IH]; intros pre best_i best Hlt Hnth Hub Hfirst.
  - cbn. rewrite app_nil_r. subst best. now repeat split.
  - cbn [argmax_from].
    replace (pre ++ x :: t) with ((pre ++ [x]) ++ t)
      by (now rewrite <- app_assoc).
    replace (S (List.length pre)) with (List.length (pre ++ [x]))
      by (rewrite length_app; cbn; lia).
    destruct (Qlt_bool best x) eqn:E.
    + apply Qlt_bool_iff in E.
      assert (Hx : nth (List.length pre) (pre ++ [x]) 0%Q = x).
      { rewrite app_nth2, Nat.sub_diag; [reflexivity|lia]. }
      apply IH.
      * rewrite length_app; cbn; lia.
      * exact Hx.
      * intros j Hj. rewrite length_app in Hj; cbn in Hj.
        destruct (Nat.eq_dec j (List.length pre)) as [->|Hne].
        -- rewrite Hx. apply Qle_refl.
        -- rewrite app_nth1 by lia. apply Qlt_le_weak.
           eapply Qle_lt_trans; [apply Hub; lia|exact E].
      * intros j Hj. rewrite app_nth1 by lia.
        eapply Qle_lt_trans; [apply Hub; lia|exact E].
    + apply Qlt_bool_false_iff in E.
      apply IH.
      * rewrite length_app; cbn; lia.
      * rewrite app_nth1 by lia. exact Hnth.
      * intros j Hj. rewrite length_app in Hj; cbn in Hj.
        destruct (Nat.eq_dec j (List.length pre)) as [->|Hne].
        -- rewrite app_nth2, Nat.sub_diag by lia. exact E.
        -- rewrite app_nth1 by lia. apply Hub. lia.
      * intros j Hj. rewrite app_nth1 by lia. now apply Hfirst.
Qed.

Lemma argmax_first_max (l : list Q) (i : nat) :
  argmax l = Some i -> is_first_max l i.
Proof.
  destruct l as [|x t]; [discriminate|]. cbn. intros [= <-].
  apply (argmax_from_first_max t [x] 0 x); cbn.
  - lia.
  - reflexivity.
  - intros j Hj. replace j with 0 by lia. apply Qle_refl.
  - intros j Hj. lia.
Qed.

Lemma argmax_nonempty (l : list Q) :
  l <> [] -> exists i, argmax l = Some i.
Proof. destruct l; [congruence|]. intros _. eexists. reflexivity. Qed.

(** There is one first greatest value. *)
Lemma is_first_max_unique (l : list Q) (i j : nat) :
  is_first_max l i -> is_first_max l j -> i = j.
Proof.
  intros (Hi & Hub & Hfirst) (Hj & Hub' & Hfirst').
  destruct (Nat.lt_trichotomy i j) as [H|[H|H]]; [|exact H|].
  - exfalso. apply (Qlt_not_le _ _ (Hfirst' i H)). now apply Hub.
  - exfalso. apply (Qlt_not_le _ _ (Hfirst j H)). now apply Hub'.
Qed.

(** The first greatest value is the greatest value. *)
Lemma is_first_max_is_max (l : list Q) (i : nat) :
  is_first_max l i -> is_max (nth i l 0%Q) l.
Proof.
  intros (Hi & Hub & _). split.
  - now apply nth_In.
  - intros x Hx. destruct (In_nth l x 0%Q Hx) as (j & Hj & <-). now apply Hub.
Qed.

(* ================================================================== *)
(** ** dragon_back_strategy: [analyze_stock] on a well-formed frame *)

Section WellFormedFrame.
Variable df : DataFrame.
Hypothesis Hnum : numeric df.
Hypothesis Hlen : 30 <= len df.

Lemma getitem_numeric (b : Bar) (c : column) :
  getitem df b c = Return (Flt (Fin (field c b))).
Proof.
  destruct Hnum as (Ho & Hc & Hv).
  unfold getitem, dtype_of. destruct c; now rewrite ?Ho, ?Hc, ?Hv.
Qed.

Lemma getcol_tail_numeric (n : nat) (c : column) :
  getcol (tail n df) c
  = Return (NumSeries (first_label df + (len df - n))
              (map (field c) (lastn n (rows df)))).
Proof.
  destruct Hnum as (Ho & Hc & Hv).
  unfold getcol, dtype_of, tail; cbn. destruct c; now rewrite ?Ho, ?Hc, ?Hv.
Qed.

Lemma iloc_last : iloc_neg df 1 = Return (latest (rows df)).
Proof.
  unfold iloc_neg, latest, len in *.
  replace (1 <=? List.length (rows df)) with true
    by (symmetry; apply Nat.leb_le; lia).
  cbn [andb Nat.leb].
  rewrite (nth_error_last (rows df) no_bar); [reflexivity|].
  intros E. rewrite E in Hlen. cbn in Hlen. lia.
Qed.

Lemma iloc_previous : iloc_neg df 2 = Return (previous (rows df)).
Proof.
  unfold iloc_neg, previous, len in *.
  replace (2 <=? List.length (rows df)) with true
    by (symmetry; apply Nat.leb_le; lia).
  cbn [andb Nat.leb].
  rewrite (nth_error_nth' (rows df) no_bar); [reflexivity|lia].
Qed.

Lemma window_20_length : List.length (window 20 (rows df)) = 20.
Proof. unfold window. rewrite lastn_length. unfold len in *. lia. Qed.

(** The reference-volume day exists, and [idxmax] and [loc] find it. *)
Lemma reference_day_found :
  exists i ref,
    is_first_max (map volume (window 20 (rows df))) i
    /\ nth_error (window 20 (rows df)) i = Some ref
    /\ idxmax (NumSeries (first_label df + (len df - 20))
                 (map volume (lastn 20 (rows df))))
       = Return (first_label df + (len df - 20) + i)
    /\ len df - 20 + i < len df
    /\ loc df (first_label df + (len df - 20) + i) = Return ref.
Proof.
  pose proof window_20_length as H20. unfold window in *.
  destruct (argmax_nonempty (map volume (lastn 20 (rows df)))) as (i & Hi).
  { intros E. apply (f_equal (@List.length _)) in E.
    rewrite length_map, H20 in E. discriminate. }
  pose proof (argmax_first_max _ _ Hi) as Hfm.
  assert (Hi20 : i < 20).
  { destruct Hfm as (Hlt & _). now rewrite length_map, H20 in Hlt. }
  destruct (nth_error (lastn 20 (rows df)) i) as [ref|] eqn:Href.
  2:{ apply nth_error_None in Href. lia. }
  exists i, ref. repeat split; try assumption.
  - apply Hfm.
  - apply Hfm.
  - apply Hfm.
  - cbn. now rewrite Hi.
  - lia.
  - unfold loc.
    replace (first_label df <=? first_label df + (len df - 20) + i) with true
      by (symmetry; apply Nat.leb_le; lia).
    replace (first_label df + (len df - 20) + i - first_label df)
      with (List.length (rows df) - 20 + i) by (unfold len; lia).
    rewrite nth_error_lastn in Href. now rewrite Href.
Qed.

Lemma rolling_mean_5 :
  rolling_mean_last 5
    (NumSeries (first_label df + (len df - 20))
       (map close (lastn 20 (rows df))))
  = Return (Fin (sma5 (rows df))).
Proof.
  pose proof window_20_length as H20. unfold window in H20.
  unfold rolling_mean_last.
  destruct (map close (lastn 20 (rows df))) as [|x t] eqn:E.
  { apply (f_equal (@List.length _)) in E.
    rewrite length_map, H20 in E. discriminate. }
  rewrite <- E.
  replace (List.length (map close (lastn 20 (rows df))) <? 5) with false
    by (symmetry; apply Nat.ltb_ge; rewrite length_map; lia).
  unfold sma5, window.
  rewrite lastn_map, lastn_lastn by lia. reflexivity.
Qed.

(** On a well-formed frame of at least 30 rows the body raises nothing and
    returns what [screen_A] says. *)
Lemma analyze_stock_body_numeric (file_path : string) :
  exists ref,
    reference_day (rows df) ref
    /\ DragonBack.analyze_stock_body file_path (Return df)
       = Return (screen_A file_path (rows df) ref).
Proof.
  destruct reference_day_found as (i & ref & Hfm & Href & Hidx & _ & Hloc).
  exists ref. split; [now exists i|].
  unfold DragonBack.analyze_stock_body, screen_A. cbn [bind].
  replace (len df <? 30) with false by (symmetry; apply Nat.ltb_ge; lia).
  fold (code_excluded_A (DragonBack.code_of file_path)).
  destruct (code_excluded_A (DragonBack.code_of file_path)); [reflexivity|].
  rewrite iloc_last. cbn [bind].
  rewrite !getitem_numeric. cbn [bind num field].
  cbn [fle].
  destruct (Qle_bool 5 (close (latest (rows df)))
            && Qle_bool (close (latest (rows df))) 20);
    cbn [negb]; [|reflexivity].
  rewrite getcol_tail_numeric. cbn [bind].
  change (field Volume) with volume.
  rewrite Hidx. cbn [bind]. rewrite Hloc. cbn [bind].
  rewrite !getitem_numeric. cbn [bind num field].
  fold (proximity (close (latest (rows df))) (open ref)).
  fold (volume_ratio (volume (latest (rows df))) (volume ref)).
  destruct (fle (proximity (close (latest (rows df))) (open ref))
                (Fin (3 # 100))
            && flt (volume_ratio (volume (latest (rows df))) (volume ref))
                   (Fin (1 # 2))).
  2:{ cbn. reflexivity. }
  rewrite getcol_tail_numeric. cbn [bind].
  change (field Close) with close.
  rewrite rolling_mean_5. cbn [bind].
  rewrite iloc_previous. cbn [bind].
  rewrite getitem_numeric. cbn [bind num field].
  unfold fgt, flt, ladder.
  destruct (Qlt_bool (sma5 (rows df)) (close (latest (rows df))));
    destruct (Qlt_bool (volume (previous (rows df)))
                (volume (latest (rows df))));
    reflexivity.
Qed.

End WellFormedFrame.

(** A verdict is returned only for a frame that was read, has at least 30
    rows and whose three columns are numeric. *)
Lemma analyze_stock_body_Some (file_path : string) (csv : outcome DataFrame)
    (v : DragonBack.Verdict) :
  DragonBack.analyze_stock_body file_path csv = Return (Some v) ->
  exists df, csv = Return df /\ numeric df /\ 30 <= len df.
Proof.
  unfold DragonBack.analyze_stock_body. intros H.
  destruct csv as [df|e]; cbn [bind] in H; [|discriminate].
  exists df. split; [reflexivity|].
  destruct (len df <? 30) eqn:Elen; [discriminate|].
  apply Nat.ltb_ge in Elen. split; [|exact Elen].
  destruct (_ || _ || _) in H; [discriminate|].
  destruct (iloc_neg df 1) as [last_row|e]; cbn [bind] in H; [|discriminate].
  unfold getitem at 1 in H. cbn [dtype_of] in H.
  destruct (close_dtype df) eqn:Ec; cbn [bind num] in H; try discriminate.
  destruct (negb _) in H; [discriminate|].
  unfold getcol at 1 in H. cbn [dtype_of tail volume_dtype] in H.
  destruct (volume_dtype df) eqn:Ev; cbn [bind idxmax] in H; try discriminate.
  destruct (argmax _) in H; cbn [bind] in H; [|discriminate].
  destruct (loc df _) as [start_row|e] in H; cbn [bind] in H; [|discriminate].
  unfold getitem at 1 in H. cbn [dtype_of] in H.
  destruct (open_dtype df) eqn:Eo; cbn [bind num] in H; try discriminate.
  now repeat split.
Qed.

Lemma analyze_stock_Some (file_path : string) (csv : outcome DataFrame)
    (v : DragonBack.Verdict) :
  DragonBack.analyze_stock file_path csv = Return (Some v) ->
  exists df ref,
    csv = Return df /\ numeric df /\ 30 <= len df
    /\ reference_day (rows df) ref
    /\ screen_A file_path (rows df) ref = Some v.
Proof.
  unfold DragonBack.analyze_stock, try_except. intros H.
  destruct (DragonBack.analyze_stock_body file_path csv) as [r|e] eqn:E;
    [|discriminate].
  injection H as ->.
  destruct (analyze_stock_body_Some _ _ _ E) as (df & -> & Hnum & Hlen).
  destruct (analyze_stock_body_numeric df Hnum Hlen file_path)
    as (ref & Href & Hbody).
  rewrite Hbody in E. injection E as E.
  exists df, ref. auto 10.
Qed.

(** On a well-formed frame [analyze_stock] is [screen_A]. *)
Lemma analyze_stock_numeric (file_path : string) (df : DataFrame) :
  numeric df -> 30 <= len df ->
  exists ref,
    reference_day (rows df) ref
    /\ DragonBack.analyze_stock file_path (Return df)
       = Return (screen_A file_path (rows df) ref).
Proof.
  intros Hnum Hlen.
  destruct (analyze_stock_body_numeric df Hnum Hlen file_path)
    as (ref & Href & Hbody).
  exists ref. split; [exact Href|].
  unfold DragonBack.analyze_stock. now rewrite Hbody.
Qed.

Lemma reference_day_unique (bars : list Bar) (r1 r2 : Bar) :
  reference_day bars r1 -> reference_day bars r2 -> r1 = r2.
Proof.
  intros (i & Hi & E1) (j & Hj & E2).
  rewrite (is_first_max_unique _ _ _ Hi Hj) in E1. congruence.
Qed.

Lemma frame_of_numeric (bars : list Bar) : numeric (frame_of bars).
Proof. now repeat split. Qed.

(* ================================================================== *)
(** ** Rounding to 2 decimal places *)



(* ================================================================== *)
(** ** dragon_back_strategy: the claims on [analyze_stock] *)








Lemma screen_A_fields (file_path : string) (bars : list Bar) (ref : Bar)
    (v : DragonBack.Verdict) :
  screen_A file_path bars ref = Some v ->
  DragonBack.signal_score v
  = fst (ladder (Qlt_bool (sma5 bars) (close (latest bars)))
                (Qlt_bool (volume (previous bars)) (volume (latest bars))))
  /\ DragonBack.support_price v = round2 (Fin (open ref))
  /\ DragonBack.latest_close v = Fin (close (latest bars)).
Proof.
  unfold screen_A. intros H.
  destruct (code_excluded_A _); [discriminate|].
  destruct (negb _); [discriminate|].
  destruct (_ && _); [|discriminate].
  injection H as <-. cbn. auto.
Qed.









(** C9. Every verdict of [analyze_stock] scores 70, 80, 90 or 100, and each
    of the four is the score of some input; 80 is the score of a series to
    which the re-expansion bonus applies and the moving-average bonus does
    not. *)
Theorem C9_score_is_70_80_90_or_100 :
  (forall (file_path : string) (csv : outcome DataFrame)
          (v : DragonBack.Verdict),
     DragonBack.analyze_stock file_path csv = Return (Some v) ->
     In (DragonBack.signal_score v) [70; 80; 90; 100]%Z)
  /\ (forall s, In s [70; 80; 90; 100]%Z ->
      exists file_path bars v,
        DragonBack.analyze_stock file_path (Return (frame_of bars))
        = Return (Some v)
        /\ DragonBack.signal_score v = s)
  /\ (exists file_path bars v,
        DragonBack.analyze_stock file_path (Return (frame_of bars))
        = Return (Some v)
        /\ DragonBack.signal_score v = 80%Z
        /\ reexpansion_bonus bars /\ ~ ma_bonus bars).
Proof.
  split; [|split].
  - intros file_path csv v H.
    destruct (analyze_stock_Some _ _ _ H) as (df & ref & _ & _ & _ & _ & Hs).
    destruct (screen_A_fields _ _ _ _ Hs) as (-> & _).
    destruct (Qlt_bool (sma5 (rows df)) (close (latest (rows df))));
      destruct (Qlt_bool (volume (previous (rows df)))
                  (volume (latest (rows df))));
      cbn; tauto.
  - intros s Hs. exists "stock_data/600000.csv"%string.
    destruct Hs as [<-|[<-|[<-|[<-|[]]]]].
    + exists bars_70, verdict_70. split; vm_compute; reflexivity.
    + exists bars_80, verdict_80. split; vm_compute; reflexivity.
    + exists bars_90, verdict_90. split; vm_compute; reflexivity.
    + exists bars_100, verdict_100. split; vm_compute; reflexivity.
  - exists "stock_data/600000.csv"%string, bars_80, verdict_80.
    repeat split; try (vm_compute; reflexivity).
    vm_compute. discriminate.
Qed.

Lemma fdiv_finite (a b : Q) :
  ~ (b == 0)%Q -> fdiv (Fin a) (Fin b) = Fin (a / b).
Proof.
  intros Hb. unfold fdiv. destruct (Qeq_bool b 0) eqn:E; [|reflexivity].
  apply Qeq_bool_iff in E. contradiction.
Qed.

(** C10. On a series of at least 30 bars with positive opening prices and a
    positive greatest volume among the trailing 20, every access of
    [analyze_stock] is within bounds (the latest bar, the bar before it, the
    trailing window and the row [idxmax] points to), both divisors are
    non-zero, the two quotients are numbers, and the body under [try]
    raises nothing. *)
Theorem C10_accesses_in_bounds_and_divisors_nonzero
    (file_path : string) (bars : list Bar) :
  30 <= List.length bars ->
  (forall b, In b bars -> (0 < open b)%Q) ->
  (exists m, is_max m (map volume (window 20 bars)) /\ (0 < m)%Q) ->
  let df := frame_of bars in
  (exists last_row prev_row max_vol_idx start_row,
      iloc_neg df 1 = Return last_row
      /\ iloc_neg df 2 = Return prev_row
      /\ len (tail 20 df) = 20
      /\ bind (getcol (tail 20 df) Volume) idxmax = Return max_vol_idx
      /\ len df - 20 <= max_vol_idx < len df
      /\ loc df max_vol_idx = Return start_row
      /\ ~ (open start_row == 0)%Q
      /\ ~ (volume start_row == 0)%Q
      /\ (exists q,
            fdiv (fabs (fsub (Fin (close last_row)) (Fin (open start_row))))
                 (Fin (open start_row)) = Fin q)
      /\ (exists q, fdiv (Fin (volume last_row)) (Fin (volume start_row))
                    = Fin q))
  /\ (exists r, DragonBack.analyze_stock_body file_path (Return df) = Return r)
  /\ (forall e, DragonBack.analyze_stock_body file_path (Return df) <> Raise e).
Proof.
  intros Hlen Hopen (m & Hmax & Hm) df.
  assert (Hnum : numeric df) by apply frame_of_numeric.
  assert (Hlen' : 30 <= len df) by exact Hlen.
  destruct (reference_day_found df Hlen')
    as (i & ref & Hfm & Href & Hidx & Hi & Hloc).
  cbn [rows first_label df frame_of] in *.
  assert (Hin : In ref bars).
  { apply (In_lastn 20). eapply nth_error_In. exact Href. }
  assert (Hvol : (0 < volume ref)%Q).
  { pose proof (is_first_max_is_max _ _ Hfm) as Hmax'.
    assert (E : nth i (map volume (window 20 bars)) 0%Q = volume ref).
    { apply nth_error_nth. now apply map_nth_error. }
    rewrite E in Hmax'.
    rewrite <- (is_max_unique _ _ _ Hmax Hmax'). exact Hm. }
  assert (Hopen0 : ~ (open ref == 0)%Q).
  { intros E. specialize (Hopen ref Hin). rewrite E in Hopen. discriminate. }
  assert (Hvol0 : ~ (volume ref == 0)%Q).
  { intros E. rewrite E in Hvol. discriminate. }
  split; [|split].
  - exists (latest bars), (previous bars), (len df - 20 + i), ref.
    split; [apply (iloc_last df Hlen')|].
    split; [apply (iloc_previous df Hlen')|].
    split.
    { unfold len, tail. cbn [rows]. rewrite lastn_length.
      unfold df, frame_of; cbn [rows]. lia. }
    split.
    { rewrite (getcol_tail_numeric df Hnum). cbn [bind].
      change (field Volume) with volume. exact Hidx. }
    split; [unfold len in *; cbn [rows df frame_of] in *; lia|].
    split; [exact Hloc|].
    split; [exact Hopen0|]. split; [exact Hvol0|].
    split; eexists.
    + cbn [fsub fneg fadd fabs]. now apply fdiv_finite.
    + now apply fdiv_finite.
  - destruct (analyze_stock_body_numeric df Hnum Hlen' file_path)
      as (ref' & _ & Hbody).
    eexists. exact Hbody.
  - intros e.
    destruct (analyze_stock_body_numeric df Hnum Hlen' file_path)
      as (ref' & _ & Hbody).
    rewrite Hbody. discriminate.
Qed.

Lemma C10_witness :
  (exists r, DragonBack.analyze_stock_body "stock_data/600000.csv"
               (Return (frame_of bars_70)) = Return r)
  /\ (forall e, DragonBack.analyze_stock_body "stock_data/600000.csv"
                  (Return (frame_of bars_70)) <> Raise e).
Proof.
  assert (Hlen : 30 <= List.length bars_70) by (vm_compute; lia).
  assert (Hopen : forall b, In b bars_70 -> (0 < open b)%Q).
  { apply Forall_forall. vm_compute. repeat constructor. }
  assert (Hmax : exists m,
             is_max m (map volume (window 20 bars_70)) /\ (0 < m)%Q).
  { exists 1000%Q. split; [|reflexivity].
    change (map volume (window 20 bars_70))
      with (1000%Q :: (repeat 1000%Q 17 ++ [450%Q; 400%Q])).
    split; [now left|]. apply Forall_forall.
    repeat constructor; vm_compute; discriminate. }
  apply (C10_accesses_in_bounds_and_divisors_nonzero
           "stock_data/600000.csv" bars_70 Hlen Hopen Hmax).
Defined.

(* ================================================================== *)
(** ** volume_bottom_scanner: [analyze_stock_file] *)



Lemma series_max_numeric (first : nat) (l : list Q) :
  l <> [] -> series_max (NumSeries first l) = Flt (Fin (greatest l)).
Proof. destruct l; [congruence|reflexivity]. Qed.

Lemma series_min_numeric (first : nat) (l : list Q) :
  l <> [] -> series_min (NumSeries first l) = Flt (Fin (least l)).
Proof. destruct l; [congruence|reflexivity]. Qed.

Lemma map_window_nonempty {A : Type} (f : Bar -> A) (n : nat)
    (bars : list Bar) :
  1 <= n -> 1 <= List.length bars -> map f (window n bars) <> [].
Proof.
  intros Hn Hl E. apply (f_equal (@List.length _)) in E.
  unfold window in E. rewrite length_map, lastn_length in E. cbn in E. lia.
Qed.

(** Part B on a frame already sorted: well-formed and of at least 120
    rows, it raises nothing and returns what [screen_B] says. *)
Lemma technical_screen_sorted (code : string) (name : VolumeBottom.name_value)
    (df : DataFrame) :
  close_dtype df = Numeric -> volume_dtype df = Numeric ->
  120 <= len df ->
  (latest_data <- iloc_neg df 1 ;;
   latest_close_cell <- getitem df latest_data Close ;;
   latest_volume_cell <- getitem df latest_data Volume ;;
   latest_close <- num latest_close_cell ;;
   if negb (fle (Fin VolumeBottom.PRICE_MIN) latest_close
            && fle latest_close (Fin VolumeBottom.PRICE_MAX))
   then Return None else
   let history_df := VolumeBottom.iloc_lastn
                       (Nat.max VolumeBottom.VOLUME_PERIOD
                                VolumeBottom.PRICE_LOW_PERIOD) df in
   history_vol <- getcol history_df Volume ;;
   let max_volume_cell :=
     series_max (series_lastn VolumeBottom.VOLUME_PERIOD history_vol) in
   max_volume <- num max_volume_cell ;;
   latest_volume <- num latest_volume_cell ;;
   if fgt latest_volume (fmul max_volume (Fin VolumeBottom.VOLUME_SHRINK_RATIO))
   then Return None else
   history_close <- getcol history_df Close ;;
   let price_history :=
     series_lastn VolumeBottom.PRICE_LOW_PERIOD history_close in
   low_price <- num (series_min price_history) ;;
   high_price <- num (series_max price_history) ;;
   let price_range := fsub high_price low_price in
   let low_threshold :=
     fadd low_price
       (fmul (Fin VolumeBottom.PRICE_LOW_RANGE_RATIO) price_range) in
   if fgt latest_close low_threshold then Return None else
   Return (Some (VolumeBottom.mkVerdict code name latest_close latest_volume
                   max_volume low_threshold)))%py
  = Return (screen_B code name (rows df)).
Proof.
  intros Hc Hv Hlen.
  assert (Hlast : iloc_neg df 1 = Return (latest (rows df))).
  { unfold iloc_neg, latest, len in *.
    replace (1 <=? List.length (rows df)) with true
      by (symmetry; apply Nat.leb_le; lia).
    cbn [andb Nat.leb].
    rewrite (nth_error_last (rows df) no_bar); [reflexivity|].
    intros E. rewrite E in Hlen. cbn in Hlen. lia. }
  rewrite Hlast. cbn [bind].
  unfold getitem at 1 2. cbn [dtype_of]. rewrite Hc, Hv. cbn [bind num field].
  unfold screen_B. cbn [fle].
  destruct (negb _); [reflexivity|].
  unfold VolumeBottom.iloc_lastn, getcol.
  cbn [dtype_of tail volume_dtype close_dtype rows].
  rewrite Hc, Hv. cbn [bind series_lastn].
  change (Nat.max VolumeBottom.VOLUME_PERIOD VolumeBottom.PRICE_LOW_PERIOD)
    with 120.
  change VolumeBottom.VOLUME_PERIOD with 120.
  change VolumeBottom.PRICE_LOW_PERIOD with 40.
  change (field Volume) with volume. change (field Close) with close.
  rewrite !lastn_map, !lastn_lastn by lia.
  unfold len in Hlen.
  rewrite !series_max_numeric, !series_min_numeric
    by (apply map_window_nonempty; lia).
  cbn [bind num fmul fgt flt].
  fold (window 120 (rows df)). fold (window 40 (rows df)).
  destruct (Qlt_bool _ (volume (latest (rows df)))); [reflexivity|].
  cbn [fsub fadd fneg fmul fgt flt].
  unfold Qminus.
  destruct (Qlt_bool _ (close (latest (rows df)))); reflexivity.
Qed.

Lemma technical_screen_numeric (sort_values : list Bar -> list Bar)
    (code : string) (name : VolumeBottom.name_value) (df : DataFrame) :
  numeric_B df ->
  120 <= List.length (sort_values (rows df)) ->
  VolumeBottom.technical_screen sort_values code name (Return df)
  = Return (screen_B code name (sort_values (rows df))).
Proof.
  intros (Hd & Hc & Hv) Hlen.
  unfold VolumeBottom.technical_screen. cbn [bind].
  unfold VolumeBottom.sort_by_date. rewrite Hd. cbn [bind].
  set (df' := mkFrame 0 (sort_values (rows df)) true
                (open_dtype df) (close_dtype df) (volume_dtype df)).
  replace (len df' <? Nat.max VolumeBottom.VOLUME_PERIOD
                        VolumeBottom.PRICE_LOW_PERIOD) with false.
  2:{ symmetry. apply Nat.ltb_ge. exact Hlen. }
  apply (technical_screen_sorted code name df'); assumption.
Qed.

(** A verdict comes out of part B only for a frame that was read, is
    well-formed and has at least 120 rows. *)
Lemma technical_screen_Some (sort_values : list Bar -> list Bar)
    (code : string) (name : VolumeBottom.name_value)
    (csv : outcome DataFrame) (v : VolumeBottom.Verdict) :
  VolumeBottom.technical_screen sort_values code name csv = Return (Some v) ->
  exists df,
    csv = Return df /\ numeric_B df
    /\ 120 <= List.length (sort_values (rows df)).
Proof.
  unfold VolumeBottom.technical_screen. intros H.
  destruct csv as [df|e]; cbn [bind] in H; [|discriminate].
  exists df. split; [reflexivity|].
  unfold VolumeBottom.sort_by_date in H.
  destruct (date_col df) eqn:Ed; cbn [bind] in H; [|discriminate].
  set (df' := mkFrame 0 (sort_values (rows df)) true
                (open_dtype df) (close_dtype df) (volume_dtype df)) in *.
  destruct (len df' <? _) eqn:Elen; [discriminate|].
  apply Nat.ltb_ge in Elen.
  destruct (iloc_neg df' 1) as [latest_data|e]; cbn [bind] in H;
    [|discriminate].
  unfold getitem at 1 2 in H. cbn [dtype_of] in H.
  change (close_dtype df') with (close_dtype df) in H.
  change (volume_dtype df') with (volume_dtype df) in H.
  destruct (close_dtype df) eqn:Ec; destruct (volume_dtype df) eqn:Ev;
    cbn [bind num] in H; try discriminate.
  2:{ now repeat split. }
  destruct (negb _) in H; [discriminate|].
  unfold getcol at 1 in H.
  unfold VolumeBottom.iloc_lastn, tail, dtype_of in H. subst df'.
  cbn [volume_dtype bind series_lastn series_max num] in H.
  discriminate.
Qed.

Lemma name_contains_marked (name : VolumeBottom.name_value) :
  (st <- VolumeBottom.name_contains "ST" name ;;
   if st then Return true else
   pt <- VolumeBottom.name_contains "PT" name ;;
   if pt then Return true else VolumeBottom.name_contains "*" name)%py
  = match name with
    | VolumeBottom.NameStr s => Return (name_marked s)
    | VolumeBottom.NameNaN => Raise TypeError
    end.
Proof.
  destruct name as [s|]; [|reflexivity].
  unfold name_marked. cbn [VolumeBottom.name_contains bind].
  destruct (contains "ST" s); [reflexivity|].
  cbn [bind orb]. destruct (contains "PT" s); reflexivity.
Qed.

(** [analyze_stock_file] returns a verdict only when the code and name
    rules pass and part B accepts the sorted frame. *)
Lemma analyze_stock_file_Some (sort_values : list Bar -> list Bar)
    (names : VolumeBottom.names_dict) (file_path : string)
    (csv : outcome DataFrame) (v : VolumeBottom.Verdict) :
  VolumeBottom.analyze_stock_file sort_values names file_path csv
  = Return (Some v) ->
  let code := VolumeBottom.code_of file_path in
  let name := VolumeBottom.dict_get names code
                (VolumeBottom.NameStr VolumeBottom.UNKNOWN_NAME) in
  startswith code "30" = false
  /\ (exists s, name = VolumeBottom.NameStr s /\ name_marked s = false)
  /\ (startswith code "60" || startswith code "00") = true
  /\ exists df,
       csv = Return df /\ numeric_B df
       /\ 120 <= List.length (sort_values (rows df))
       /\ screen_B code name (sort_values (rows df)) = Some v.
Proof.
  intros H code name. unfold VolumeBottom.analyze_stock_file in H.
  fold code in H. fold name in H.
  destruct (startswith code "30"); [discriminate|].
  split; [reflexivity|].
  rewrite name_contains_marked in H.
  destruct name as [s|] eqn:En; cbn [bind] in H; [|discriminate].
  destruct (name_marked s) eqn:Em; [discriminate|].
  split; [now exists s|].
  destruct (startswith code "60" || startswith code "00");
    cbn [negb] in H; [|discriminate].
  split; [reflexivity|].
  unfold try_except in H.
  destruct (VolumeBottom.technical_screen sort_values code
              (VolumeBottom.NameStr s) csv) as [r|e] eqn:E.
  2:{ destruct e; discriminate. }
  injection H as ->.
  destruct (technical_screen_Some _ _ _ _ _ E) as (df & -> & Hnum & Hlen).
  rewrite (technical_screen_numeric _ _ _ _ Hnum Hlen) in E.
  injection E as E. exists df. auto.
Qed.

Lemma screen_B_Some (code : string) (name : VolumeBottom.name_value)
    (bars : list Bar) (v : VolumeBottom.Verdict) :
  screen_B code name bars = Some v ->
  let c := close (latest bars) in
  let lv := volume (latest bars) in
  let mv := greatest (map volume (window 120 bars)) in
  let lo := least (map close (window 40 bars)) in
  let hi := greatest (map close (window 40 bars)) in
  let th := (lo + (3 # 100) * (hi - lo))%Q in
  v = VolumeBottom.mkVerdict code name (Fin c) (Fin lv) (Fin mv) (Fin th)
  /\ (5 <= c <= 15)%Q
  /\ (lv <= (3 # 100) * mv)%Q
  /\ (c <= th)%Q.
Proof.
  intros H c lv mv lo hi th. unfold screen_B in H.
  fold c lv mv lo hi in H.
  change VolumeBottom.PRICE_LOW_RANGE_RATIO with (3 # 100) in H.
  change VolumeBottom.VOLUME_SHRINK_RATIO with (3 # 100) in H.
  change VolumeBottom.PRICE_MIN with 5%Q in H.
  change VolumeBottom.PRICE_MAX with 15%Q in H.
  fold th in H.
  destruct (Qle_bool 5 c) eqn:E1; [|discriminate].
  destruct (Qle_bool c 15) eqn:E2; [|discriminate].
  cbn [andb negb] in H.
  destruct (Qlt_bool (mv * (3 # 100)) lv) eqn:E3; [discriminate|].
  destruct (Qlt_bool th c) eqn:E4; [discriminate|].
  injection H as <-.
  apply Qle_bool_iff in E1, E2.
  apply Qlt_bool_false_iff in E3, E4.
  repeat split; try assumption.
  now rewrite Qmult_comm.
Qed.



(* ================================================================== *)
(** ** Sorting *)

Section InsertionSort.
Context {A : Type}.
Variable before : A -> A -> bool.
Variable R : A -> A -> Prop.
Hypothesis R_trans : forall a b c, R a b -> R b c -> R a c.
Hypothesis before_true : forall a b, before a b = true -> R a b.
Hypothesis before_false : forall a b, before a b = false -> R b a.

Lemma insert_by_perm (b : A) (l : list A) :
  Permutation (b :: l) (insert_by before b l).
Proof.
  induction l as [|x t IH]; cbn.
  - apply Permutation_refl.
  - destruct (before b x).
    + apply Permutation_refl.
    + eapply perm_trans; [apply perm_swap|]. now apply perm_skip.
Qed.

Lemma insertion_sort_perm (l : list A) :
  Permutation l (insertion_sort before l).
Proof.
  induction l as [|x t IH]; cbn.
  - apply perm_nil.
  - eapply perm_trans; [apply perm_skip, IH|]. apply insert_by_perm.
Qed.

Lemma insert_by_sorted (b : A) (l : list A) :
  StronglySorted R l -> StronglySorted R (insert_by before b l).
Proof.
  induction 1 as [|x t Hs IH Hx]; cbn.
  - constructor; constructor.
  - destruct (before b x) eqn:E.
    + constructor; [now constructor|].
      constructor; [now apply before_true|].
      apply before_true in E.
      eapply Forall_impl; [|exact Hx]. intros c Hc. now apply (R_trans b x c).
    + constructor; [exact IH|].
      eapply Permutation_Forall; [apply insert_by_perm|].
      constructor; [now apply before_false|exact Hx].
Qed.

Lemma insertion_sort_sorted (l : list A) :
  StronglySorted R (insertion_sort before l).
Proof.
  induction l as [|x t IH]; cbn.
  - constructor.
  - now apply insert_by_sorted.
Qed.

End InsertionSort.

Section SortedPermutations.
Context {A : Type}.
Variables R S : A -> A -> Prop.


(** A list sorted strictly has one sorted arrangement. *)
Lemma sorted_perm_unique (l1 l2 : list A) :
  (forall a b, S a b -> R b a -> False) ->
  StronglySorted S l1 -> StronglySorted R l2 -> Permutation l1 l2 ->
  l1 = l2.
Proof.
  intros Hstrict. revert l2.
  induction l1 as [|a t1 IH]; intros l2 H1 H2 Hp.
  - apply Permutation_nil in Hp. now subst.
  - destruct l2 as [|b t2].
    { apply Permutation_sym, Permutation_nil in Hp. discriminate. }
    apply StronglySorted_inv in H1, H2.
    destruct H1 as [Ht1 Ha], H2 as [Ht2 Hb].
    rewrite Forall_forall in Ha, Hb.
    assert (E : a = b).
    { assert (Hin_a : In a (b :: t2)).
      { eapply Permutation_in; [exact Hp|now left]. }
      assert (Hin_b : In b (a :: t1)).
      { eapply Permutation_in; [apply Permutation_sym, Hp|now left]. }
      destruct Hin_a as [E|Hin_a]; [now symmetry|].
      destruct Hin_b as [E|Hin_b]; [exact E|].
      exfalso. apply (Hstrict a b); auto. }
    subst b. f_equal. apply IH; try assumption.
    eapply Permutation_cons_inv. exact Hp.
Qed.

End SortedPermutations.

(** *** The order of dates *)

Lemma string_leb_iff (a b : string) :
  String.leb a b = true <-> a = b \/ OrderedTypeEx.String_as_OT.lt a b.
Proof.
  unfold String.leb.
  destruct (String.compare a b) eqn:E.
  - split; [|reflexivity]. intros _. left.
    now apply OrderedTypeEx.String_as_OT.cmp_eq.
  - split; [|reflexivity]. intros _. right.
    now apply OrderedTypeEx.String_as_OT.cmp_lt.
  - split; [discriminate|]. intros [H|H].
    + apply OrderedTypeEx.String_as_OT.cmp_eq in H.
      unfold OrderedTypeEx.String_as_OT.cmp in H. congruence.
    + apply OrderedTypeEx.String_as_OT.cmp_lt in H.
      unfold OrderedTypeEx.String_as_OT.cmp in H. congruence.
Qed.

Lemma string_ltb_iff (a b : string) :
  String.ltb a b = true <-> OrderedTypeEx.String_as_OT.lt a b.
Proof.
  unfold String.ltb. rewrite <- OrderedTypeEx.String_as_OT.cmp_lt.
  unfold OrderedTypeEx.String_as_OT.cmp.
  destruct (String.compare a b); split; congruence.
Qed.

Lemma string_leb_trans (a b c : string) :
  String.leb a b = true -> String.leb b c = true -> String.leb a c = true.
Proof.
  rewrite !string_leb_iff. intros [->|H1] [->|H2]; auto.
  right. eapply OrderedTypeEx.String_as_OT.lt_trans; eassumption.
Qed.

Lemma string_ltb_trans (a b c : string) :
  String.ltb a b = true -> String.ltb b c = true -> String.ltb a c = true.
Proof.
  rewrite !string_ltb_iff. apply OrderedTypeEx.String_as_OT.lt_trans.
Qed.

Lemma string_ltb_not_leb (a b : string) :
  String.ltb a b = true -> String.leb b a = true -> False.
Proof.
  unfold String.ltb, String.leb. rewrite (String.compare_antisym a b).
  destruct (String.compare b a); cbn; discriminate.
Qed.

Lemma string_leb_false (a b : string) :
  String.leb a b = false -> String.leb b a = true.
Proof.
  intros H. destruct (String.leb_total a b) as [E|E]; [congruence|exact E].
Qed.

(** *** The two reference sorts do what a sort of pandas guarantees *)

Lemma stable_sort_by_date_sorts :
  sorts_by_date VolumeBottom.stable_sort_by_date.
Proof.
  intros l. split.
  - apply insertion_sort_perm.
  - apply insertion_sort_sorted.
    + intros a b c. apply string_leb_trans.
    + auto.
    + intros a b. apply string_leb_false.
Qed.

Lemma stable_sort_desc_sorts : sorts_by_score_desc DragonBack.stable_sort_desc.
Proof.
  intros l. split.
  - apply insertion_sort_perm.
  - apply insertion_sort_sorted.
    + intros a b c H1 H2. lia.
    + intros a b H. now apply Z.leb_le in H.
    + intros a b H. apply Z.leb_gt in H. lia.
Qed.


(* ================================================================== *)
(** ** dragon_back_strategy: the ranking of [main] *)







(* ================================================================== *)
(** ** The remaining claims: boundaries, exclusions, exceptions *)

Lemma ascending_Sorted {A : Type} (lt : A -> A -> bool) (l : list A) :
  ascending lt l = true -> Sorted (fun a b => lt a b = true) l.
Proof.
  induction l as [|x t IH]; intros H; [constructor|].
  destruct t as [|y t'].
  - constructor; constructor.
  - cbn in H. apply andb_true_iff in H. destruct H as [Hxy Ht].
    constructor; [now apply IH|]. now constructor.
Qed.

Lemma bars_120_strictly_sorted :
  StronglySorted (fun a b => String.ltb (date a) (date b) = true) bars_120.
Proof.
  apply Sorted_StronglySorted.
  - intros a b c. apply string_ltb_trans.
  - apply (ascending_Sorted (fun a b => String.ltb (date a) (date b))).
    vm_compute. reflexivity.
Qed.

(** Bars in strict date order are left as they are by every sort by
    date. *)
Lemma sort_of_sorted (sort_values : list Bar -> list Bar) (bars : list Bar) :
  sorts_by_date sort_values ->
  StronglySorted (fun a b => String.ltb (date a) (date b) = true) bars ->
  sort_values bars = bars.
Proof.
  intros Hsort Hstrict. destruct (Hsort bars) as [Hperm Hsorted].
  symmetry.
  apply (sorted_perm_unique
           (fun a b => String.leb (date a) (date b) = true)
           (fun a b => String.ltb (date a) (date b) = true));
    try assumption.
  intros a b. apply string_ltb_not_leb.
Qed.

(** [analyze_stock_file] on a well-formed frame whose code and name pass
    the rules of part A. *)
Lemma analyze_stock_file_numeric (sort_values : list Bar -> list Bar)
    (names : VolumeBottom.names_dict) (file_path : string) (df : DataFrame)
    (s : string) :
  let code := VolumeBottom.code_of file_path in
  startswith code "30" = false ->
  VolumeBottom.dict_get names code
    (VolumeBottom.NameStr VolumeBottom.UNKNOWN_NAME) = VolumeBottom.NameStr s ->
  name_marked s = false ->
  (startswith code "60" || startswith code "00") = true ->
  numeric_B df ->
  120 <= List.length (sort_values (rows df)) ->
  VolumeBottom.analyze_stock_file sort_values names file_path (Return df)
  = Return (screen_B code (VolumeBottom.NameStr s) (sort_values (rows df))).
Proof.
  intros code H30 Hname Hmark H60 Hnum Hlen.
  unfold VolumeBottom.analyze_stock_file. fold code.
  rewrite H30, name_contains_marked, Hname. cbn [bind].
  rewrite Hmark, H60. cbn [negb].
  now rewrite (technical_screen_numeric _ _ _ _ Hnum Hlen).
Qed.

(** C7. [analyze_stock] excludes every series of 29 bars and evaluates a
    series of exactly 30: its result is then the one of the pattern rules,
    and a 30-bar series gets a verdict.  [analyze_stock_file] gives no
    verdict to a series of 119 bars and evaluates a series of exactly 120:
    when the code and name rules pass, its result is the one of the
    pattern rules, and a 120-bar series gets a verdict. *)
Theorem C7_minimum_length_boundary :
  (forall file_path df,
     len df = 29 ->
     DragonBack.analyze_stock file_path (Return df) = Return None)
  /\ (forall file_path bars,
        List.length bars = 30 ->
        exists ref,
          reference_day bars ref
          /\ DragonBack.analyze_stock file_path (Return (frame_of bars))
             = Return (screen_A file_path bars ref))
  /\ (List.length bars_70 = 30
      /\ DragonBack.analyze_stock "stock_data/600000.csv"
           (Return (frame_of bars_70)) = Return (Some verdict_70))
  /\ (forall sort_values, sorts_by_date sort_values ->
      forall names file_path df,
        len df = 119 ->
        forall v, VolumeBottom.analyze_stock_file sort_values names file_path
                    (Return df) <> Return (Some v))
  /\ (forall sort_values, sorts_by_date sort_values ->
      forall bars,
        List.length bars = 120 ->
        VolumeBottom.analyze_stock_file sort_values [] "stock_data/600000.csv"
          (Return (frame_of bars))
        = Return (screen_B "600000"
                    (VolumeBottom.NameStr VolumeBottom.UNKNOWN_NAME)
                    (sort_values bars)))
  /\ (List.length bars_120 = 120
      /\ forall sort_values, sorts_by_date sort_values ->
         VolumeBottom.analyze_stock_file sort_values [] "stock_data/600000.csv"
           (Return (frame_of bars_120)) = Return (Some verdict_120)).
Proof.
  assert (H120 :
    forall sort_values, sorts_by_date sort_values ->
    forall bars,
      List.length bars = 120 ->
      VolumeBottom.analyze_stock_file sort_values [] "stock_data/600000.csv"
        (Return (frame_of bars))
      = Return (screen_B "600000"
                  (VolumeBottom.NameStr VolumeBottom.UNKNOWN_NAME)
                  (sort_values bars))).
  { intros sort_values Hsort bars Hlen.
    apply (analyze_stock_file_numeric sort_values []
             "stock_data/600000.csv" (frame_of bars)
             VolumeBottom.UNKNOWN_NAME); try reflexivity.
    - now repeat split.
    - cbn [rows frame_of].
      rewrite <- (Permutation_length (proj1 (Hsort bars))). lia. }
  split; [|split; [|split; [|split; [|split]]]].
  - intros file_path df Hlen.
    unfold DragonBack.analyze_stock, DragonBack.analyze_stock_body.
    cbn [bind]. now rewrite Hlen.
  - intros file_path bars Hlen.
    apply (analyze_stock_numeric file_path (frame_of bars));
      [apply frame_of_numeric|].
    unfold len. cbn [rows frame_of]. lia.
  - split; vm_compute; reflexivity.
  - intros sort_values Hsort names file_path df Hlen v H.
    destruct (analyze_stock_file_Some _ _ _ _ _ H)
      as (_ & _ & _ & df' & [= <-] & _ & Hlen' & _).
    rewrite <- (Permutation_length (proj1 (Hsort (rows df)))) in Hlen'.
    unfold len in Hlen. lia.
  - exact H120.
  - split; [reflexivity|]. intros sort_values Hsort.
    rewrite (H120 sort_values Hsort bars_120 eq_refl).
    rewrite (sort_of_sorted sort_values bars_120 Hsort
               bars_120_strictly_sorted).
    vm_compute. reflexivity.
Qed.

Lemma C7_witness :
  DragonBack.analyze_stock "stock_data/600000.csv" (Return (frame_of bars_29))
  = Return None
  /\ VolumeBottom.analyze_stock_file VolumeBottom.stable_sort_by_date []
       "stock_data/600000.csv" (Return (frame_of bars_120))
     = Return (Some verdict_120)
  /\ forall v, VolumeBottom.analyze_stock_file VolumeBottom.stable_sort_by_date
                 [] "stock_data/600000.csv" (Return (frame_of bars_119))
               <> Return (Some v).
Proof.
  destruct C7_minimum_length_boundary as (H29 & _ & _ & H119 & _ & _ & H120).
  split; [|split].
  - apply H29. reflexivity.
  - apply H120, stable_sort_by_date_sorts.
  - apply (H119 _ stable_sort_by_date_sorts). reflexivity.
Defined.

Lemma startswith_app (p rest : string) : startswith (p ++ rest) p = true.
Proof.
  unfold startswith. induction p as [|c p IH]; cbn.
  - now destruct rest.
  - destruct (ascii_dec c c); [exact IH|congruence].
Qed.

Lemma contains_app (needle pre post : string) :
  contains needle (pre ++ needle ++ post) = true.
Proof.
  induction pre as [|c pre IH].
  - cbn [append]. destruct (needle ++ post)%string eqn:E; cbn [contains].
    + rewrite <- E. fold (startswith (needle ++ post) needle).
      now rewrite startswith_app.
    + rewrite <- E. fold (startswith (needle ++ post) needle).
      now rewrite startswith_app.
  - cbn [append contains]. rewrite IH. apply orb_true_r.
Qed.

(** C5 at the input that breaks it. File 600000.csv holds a qualifying
    series and the names file calls the stock "ST Alpha", a name that
    contains "ST": [analyze_stock] returns a verdict for it all the same
    (it looks for "ST" in the code, never in the name), and [main] saves
    the row under that name. *)
Theorem C5_dragon_back_keeps_an_ST_name :
  contains "ST" "ST Alpha" = true
  /\ DragonBack.analyze_stock "stock_data/600000.csv"
       (Return (frame_of bars_70)) = Return (Some verdict_70)
  /\ forall sort_values,
       sorts_by_score_desc sort_values ->
       DragonBack.main sort_values
         [("stock_data/600000.csv"%string, Return (frame_of bars_70))]
         (Some st_names_file)
       = Return
           (Some [DragonBack.mkOutRow verdict_70 (Some "ST Alpha"%string)]).
Proof.
  split; [reflexivity|]. split; [vm_compute; reflexivity|].
  intros sort_values Hsort. unfold DragonBack.main.
  replace (DragonBack.pool_map
             [("stock_data/600000.csv"%string, Return (frame_of bars_70))])
    with (Return [Some verdict_70]) by (vm_compute; reflexivity).
  cbn [bind DragonBack.not_none].
  replace (DragonBack.merge [verdict_70]
             (map (fun p => (zfill 6 (fst p), snd p)) st_names_file))
    with [DragonBack.mkOutRow verdict_70 (Some "ST Alpha"%string)]
    by (vm_compute; reflexivity).
  destruct (Hsort [DragonBack.mkOutRow verdict_70 (Some "ST Alpha"%string)])
    as [Hperm _].
  apply Permutation_length_1_inv in Hperm. now rewrite Hperm.
Qed.

(** C8 at the input that breaks it. The names dictionary holds NaN, an
    empty cell of the names file, for code 600000: the test ['ST' in name]
    stands before the [try] of [analyze_stock_file] and raises [TypeError]
    out of the function, whatever the file holds, and the loop of [main]
    over the results raises it again. *)
Theorem C8_nan_name_raises_out_of_analyze_stock_file :
  forall (sort_values : list Bar -> list Bar) (csv : outcome DataFrame),
    VolumeBottom.analyze_stock_file sort_values nan_names
      "stock_data/600000.csv" csv = Raise TypeError
    /\ forall rest,
         VolumeBottomBatch.scan sort_values nan_names
           (("stock_data/600000.csv"%string, csv) :: rest)
         = Raise TypeError.
Proof.
  intros sort_values csv.
  assert (H : VolumeBottom.analyze_stock_file sort_values nan_names
                "stock_data/600000.csv" csv = Raise TypeError)
    by reflexivity.
  split; [exact H|]. intros rest.
  unfold VolumeBottomBatch.scan, VolumeBottomBatch.filtered_files.
  cbn [filter fst].
  replace (startswith (VolumeBottom.code_of "stock_data/600000.csv") "60"
           || startswith (VolumeBottom.code_of "stock_data/600000.csv") "00")
    with true by reflexivity.
  cbn [VolumeBottomBatch.collect]. rewrite H. reflexivity.
Qed.

(* ================================================================== *)
(** ** Further properties of the two functions *)

(** X1. [analyze_stock] raises nothing: whatever the body under [try]
    raises, a failed read included, is turned into [None]. *)
Theorem analyze_stock_never_raises
    (file_path : string) (csv : outcome DataFrame) :
  (exists r, DragonBack.analyze_stock file_path csv = Return r)
  /\ (forall e, DragonBack.analyze_stock_body file_path csv = Raise e ->
      DragonBack.analyze_stock file_path csv = Return None)
  /\ (forall e, csv = Raise e ->
      DragonBack.analyze_stock file_path csv = Return None).
Proof.
  unfold DragonBack.analyze_stock, try_except.
  split; [|split].
  - destruct (DragonBack.analyze_stock_body file_path csv) as [r|e];
      eexists; reflexivity.
  - intros e ->. reflexivity.
  - intros e ->. reflexivity.
Qed.

(** X2. [analyze_stock_file] raises nothing when the name it looks up is
    a string: whatever part B raises, a missing column included, is turned
    into [None]. *)
Theorem analyze_stock_file_catches_part_B
    (sort_values : list Bar -> list Bar) (names : VolumeBottom.names_dict)
    (file_path : string) (csv : outcome DataFrame) (s : string) :
  VolumeBottom.dict_get names (VolumeBottom.code_of file_path)
    (VolumeBottom.NameStr VolumeBottom.UNKNOWN_NAME) = VolumeBottom.NameStr s ->
  (exists r, VolumeBottom.analyze_stock_file sort_values names file_path csv
             = Return r)
  /\ (forall e,
        VolumeBottom.technical_screen sort_values
          (VolumeBottom.code_of file_path) (VolumeBottom.NameStr s) csv
        = Raise e ->
        VolumeBottom.analyze_stock_file sort_values names file_path csv
        = Return None).
Proof.
  intros Hname. unfold VolumeBottom.analyze_stock_file.
  rewrite name_contains_marked, Hname. cbn [bind].
  split.
  - destruct (startswith _ "30"); [eexists; reflexivity|].
    destruct (name_marked s); [eexists; reflexivity|].
    destruct (negb _); [eexists; reflexivity|].
    unfold try_except.
    destruct (VolumeBottom.technical_screen _ _ _ _) as [r|e];
      [|destruct e]; eexists; reflexivity.
  - intros e He. rewrite He.
    destruct (startswith _ "30"); [reflexivity|].
    destruct (name_marked s); [reflexivity|].
    destruct (negb _); [reflexivity|].
    unfold try_except. destruct e; reflexivity.
Qed.

Lemma analyze_stock_file_catches_part_B_witness :
  exists r,
    VolumeBottom.analyze_stock_file VolumeBottom.stable_sort_by_date []
      "stock_data/600000.csv" (Raise OSError) = Return r.
Proof.
  apply (analyze_stock_file_catches_part_B VolumeBottom.stable_sort_by_date
           [] "stock_data/600000.csv" (Raise OSError)
           VolumeBottom.UNKNOWN_NAME eq_refl).
Defined.

(** X3. An instrument whose code starts with "30" gets no verdict from
    either function, and one whose name contains "ST" gets none from
    [analyze_stock_file]. *)
Theorem code_30_and_ST_name_get_no_verdict :
  (forall file_path csv rest,
     DragonBack.code_of file_path = ("30" ++ rest)%string ->
     DragonBack.analyze_stock file_path csv = Return None)
  /\ (forall sort_values names file_path csv rest,
        VolumeBottom.code_of file_path = ("30" ++ rest)%string ->
        VolumeBottom.analyze_stock_file sort_values names file_path csv
        = Return None)
  /\ (forall sort_values names file_path csv pre post,
        VolumeBottom.dict_get names (VolumeBottom.code_of file_path)
          (VolumeBottom.NameStr VolumeBottom.UNKNOWN_NAME)
        = VolumeBottom.NameStr (pre ++ "ST" ++ post) ->
        VolumeBottom.analyze_stock_file sort_values names file_path csv
        = Return None).
Proof.
  split; [|split].
  - intros file_path csv rest Hcode.
    unfold DragonBack.analyze_stock, DragonBack.analyze_stock_body, try_except.
    destruct csv as [df|e]; cbn [bind]; [|reflexivity].
    destruct (len df <? 30); [reflexivity|].
    now rewrite Hcode, startswith_app.
  - intros sort_values names file_path csv rest Hcode.
    unfold VolumeBottom.analyze_stock_file.
    now rewrite Hcode, startswith_app.
  - intros sort_values names file_path csv pre post Hname.
    unfold VolumeBottom.analyze_stock_file.
    destruct (startswith _ "30"); [reflexivity|].
    rewrite name_contains_marked, Hname. cbn [bind].
    unfold name_marked. now rewrite contains_app.
Qed.

(** X4. The batch of [main] in dragon_back_strategy always comes back: no
    file makes [pool_map] raise. *)
Theorem pool_map_never_raises
    (stock_files : list (string * outcome DataFrame)) :
  exists results,
    DragonBack.pool_map stock_files = Return results
    /\ List.length results = List.length stock_files.
Proof.
  induction stock_files as [|[file_path csv] rest (results & IH & Hlen)].
  - exists []. split; reflexivity.
  - cbn [DragonBack.pool_map]. rewrite IH.
    unfold DragonBack.analyze_stock, try_except.
    destruct (DragonBack.analyze_stock_body file_path csv) as [r|e];
      cbn [bind]; eexists; (split; [reflexivity|]); cbn; now rewrite Hlen.
Qed.

Lemma signed_inf_nonneg (q : Q) :
  (0 <= q)%Q -> signed_inf q = PInf \/ signed_inf q = NaN.
Proof.
  intros H. unfold signed_inf. destruct (q ?= 0)%Q eqn:E; auto.
  exfalso. rewrite <- Qlt_alt in E. apply (Qlt_not_le _ _ E H).
Qed.

(** X5. A zero divisor raises nothing in [analyze_stock] and gives no
    verdict: with a support price of zero the proximity is infinite or NaN,
    and with a reference volume of zero so is the volume ratio of a latest
    volume that is not negative. *)
Theorem zero_divisor_gets_no_verdict
    (file_path : string) (bars : list Bar) (ref : Bar) :
  30 <= List.length bars ->
  reference_day bars ref ->
  (open ref == 0)%Q
  \/ ((volume ref == 0)%Q /\ (0 <= volume (latest bars))%Q) ->
  DragonBack.analyze_stock file_path (Return (frame_of bars)) = Return None.
Proof.
  intros Hlen Href Hzero.
  destruct (analyze_stock_numeric file_path (frame_of bars)
              (frame_of_numeric bars) Hlen) as (ref' & Href' & Hrun).
  cbn [rows frame_of] in Href', Hrun.
  rewrite (reference_day_unique _ _ _ Href' Href) in Hrun. clear Href' ref'.
  rewrite Hrun. f_equal. unfold screen_A.
  destruct (code_excluded_A _); [reflexivity|].
  destruct (negb _); [reflexivity|].
  destruct Hzero as [Ho|[Hv Hlast]].
  - unfold proximity, fsub, fneg, fadd, fabs, fdiv.
    apply Qeq_bool_iff in Ho. rewrite Ho.
    destruct (signed_inf_nonneg _
                (Qabs_nonneg (close (latest bars) + - open ref)))
      as [-> | ->]; reflexivity.
  - unfold volume_ratio at 1, fdiv.
    apply Qeq_bool_iff in Hv. rewrite Hv.
    destruct (signed_inf_nonneg _ Hlast) as [-> | ->];
      cbn [flt]; now rewrite andb_false_r.
Qed.

Lemma zero_divisor_gets_no_verdict_witness :
  DragonBack.analyze_stock "stock_data/600000.csv"
    (Return (frame_of zero_open_bars)) = Return None.
Proof.
  apply (zero_divisor_gets_no_verdict "stock_data/600000.csv"
           zero_open_bars zero_open_ref).
  - vm_compute. lia.
  - exists 0. split; [|reflexivity].
    apply argmax_first_max. vm_compute. reflexivity.
  - left. reflexivity.
Defined.

(* ================================================================== *)
(** ** Further properties: file names and codes *)

Lemma contains_cons_false (needle : string) (c : ascii) (s : string) :
  contains needle (String c s) = false -> contains needle s = false.
Proof.
  cbn [contains]. intros H. apply orb_false_iff in H. apply H.
Qed.

Lemma contains_char_head (c : ascii) (s : string) :
  contains (String c EmptyString) (String c s) = true.
Proof.
  cbn [contains String.prefix].
  destruct (ascii_dec c c) as [_|H]; [|congruence]. now destruct s.
Qed.

Lemma basename_from_no_slash (candidate p : string) :
  contains "/" p = false -> basename_from candidate p = candidate.
Proof.
  induction p as [|c p IH]; intros H; [reflexivity|].
  cbn [basename_from]. destruct (Ascii.eqb c "/") eqn:E.
  - apply Ascii.eqb_eq in E. subst c.
    now rewrite contains_char_head in H.
  - apply IH. eapply contains_cons_false. exact H.
Qed.

Lemma basename_from_dir (candidate dir rest : string) :
  contains "/" rest = false ->
  basename_from candidate (dir ++ "/" ++ rest) = rest.
Proof.
  intros H. revert candidate.
  induction dir as [|c dir IH]; intros candidate.
  - cbn. now apply basename_from_no_slash.
  - cbn [append basename_from]. destruct (Ascii.eqb c "/"); apply IH.
Qed.

Lemma split_head_at_first (sep : ascii) (name rest : string) :
  contains (String sep EmptyString) name = false ->
  split_head sep (name ++ String sep EmptyString ++ rest) = name.
Proof.
  induction name as [|c name IH]; intros H.
  - cbn. now rewrite Ascii.eqb_refl.
  - cbn [append split_head]. destruct (Ascii.eqb c sep) eqn:E.
    + apply Ascii.eqb_eq in E. subst c.
      now rewrite contains_char_head in H.
    + f_equal. apply IH. eapply contains_cons_false. exact H.
Qed.

Lemma split_head_no_sep (sep : ascii) (name : string) :
  contains (String sep EmptyString) name = false ->
  split_head sep name = name.
Proof.
  induction name as [|c name IH]; intros H; [reflexivity|].
  cbn [split_head]. destruct (Ascii.eqb c sep) eqn:E.
  - apply Ascii.eqb_eq in E. subst c. now rewrite contains_char_head in H.
  - f_equal. apply IH. eapply contains_cons_false. exact H.
Qed.

Lemma contains_char_cons (c d : ascii) (s : string) :
  contains (String c EmptyString) (String d s)
  = Ascii.eqb c d || contains (String c EmptyString) s.
Proof.
  cbn [contains String.prefix]. destruct (ascii_dec c d) as [->|H].
  - rewrite Ascii.eqb_refl. now destruct s.
  - apply Ascii.eqb_neq in H. now rewrite H.
Qed.

Lemma contains_char_app (c : ascii) (a b : string) :
  contains (String c EmptyString) (a ++ b)
  = contains (String c EmptyString) a || contains (String c EmptyString) b.
Proof.
  induction a as [|d a IH].
  - cbn [append]. destruct b; reflexivity.
  - cbn [append]. now rewrite !contains_char_cons, IH, orb_assoc.
Qed.

(** X6. The code of a file is its base name up to the first dot: the
    directories of the path and whatever follows that dot, further dots
    included, play no part; [analyze_stock_file] pads it with zeros to 6
    characters, [analyze_stock] does not. *)
Theorem code_is_base_name_up_to_first_dot (dir name ext : string) :
  contains "/" name = false ->
  contains "." name = false ->
  contains "/" ext = false ->
  DragonBack.code_of (dir ++ "/" ++ name ++ "." ++ ext) = name
  /\ DragonBack.code_of (name ++ "." ++ ext) = name
  /\ DragonBack.code_of (dir ++ "/" ++ name) = name
  /\ VolumeBottom.code_of (dir ++ "/" ++ name ++ "." ++ ext) = zfill 6 name.
Proof.
  intros Hslash Hdot Hext.
  assert (Hrest : contains "/" (name ++ "." ++ ext) = false).
  { rewrite contains_char_app, Hslash. cbn [orb append].
    now rewrite contains_char_cons, Hext. }
  unfold VolumeBottom.code_of, DragonBack.code_of, basename.
  rewrite (basename_from_dir _ dir _ Hrest).
  rewrite (basename_from_no_slash _ _ Hrest).
  rewrite (basename_from_dir _ dir _ Hslash).
  rewrite (split_head_at_first "." name ext Hdot).
  rewrite (split_head_no_sep "." name Hdot).
  auto.
Qed.

Lemma code_is_base_name_up_to_first_dot_witness :
  DragonBack.code_of "./stock_data/600000.SH.csv" = "600000"%string
  /\ VolumeBottom.code_of "stock_data/1.csv" = "000001"%string.
Proof.
  destruct (code_is_base_name_up_to_first_dot "./stock_data" "600000"
              "SH.csv" eq_refl eq_refl eq_refl) as (H1 & _).
  destruct (code_is_base_name_up_to_first_dot "stock_data" "1" "csv"
              eq_refl eq_refl eq_refl) as (_ & _ & _ & H2).
  split; [exact H1|exact H2].
Defined.

Lemma zeros_length (n : nat) : String.length (zeros n) = n.
Proof. induction n; cbn; congruence. Qed.

Lemma string_length_app (a b : string) :
  String.length (a ++ b) = String.length a + String.length b.
Proof. induction a; cbn; congruence. Qed.

Lemma zfill_length (width : nat) (s : string) :
  String.length (zfill width s) = Nat.max width (String.length s).
Proof.
  unfold zfill. destruct (Nat.leb width (String.length s)) eqn:E.
  - apply Nat.leb_le in E. lia.
  - apply Nat.leb_gt in E.
    destruct s as [|c rest]; [rewrite zeros_length; cbn; lia|].
    destruct (Ascii.eqb c "+" || Ascii.eqb c "-"); cbn [String.length];
      rewrite string_length_app, zeros_length; cbn [String.length] in *; lia.
Qed.


(* ================================================================== *)
(** ** dragon_back_strategy: the names join and what [main] saves *)

Lemma In_not_none {A : Type} (l : list (option A)) (a : A) :
  In a (DragonBack.not_none l) <-> In (Some a) l.
Proof.
  induction l as [|[b|] t IH]; cbn.
  - tauto.
  - rewrite IH. split; intros [H|H]; auto; left; congruence.
  - rewrite IH. split; [auto|]. intros [H|H]; [discriminate|auto].
Qed.

Lemma pool_map_results (files : list (string * outcome DataFrame)) :
  exists results,
    DragonBack.pool_map files = Return results
    /\ Forall2 (fun f r => DragonBack.analyze_stock (fst f) (snd f) = Return r)
         files results.
Proof.
  induction files as [|[file_path csv] rest (rs & Hrs & Hall)].
  - exists []. split; [reflexivity|constructor].
  - cbn [DragonBack.pool_map].
    destruct (DragonBack.analyze_stock file_path csv) as [r|e] eqn:Er.
    + exists (r :: rs). cbn [bind]. rewrite Hrs. cbn [bind].
      split; [reflexivity|]. constructor; [exact Er|exact Hall].
    + exfalso. unfold DragonBack.analyze_stock, try_except in Er.
      destruct (DragonBack.analyze_stock_body file_path csv); discriminate.
Qed.

Lemma merge_row (v : DragonBack.Verdict) (names_df : list (string * string))
    (r : DragonBack.OutRow) :
  In r (DragonBack.merge [v] names_df)
  <-> DragonBack.verdict r = v
      /\ match DragonBack.name r with
         | Some n => In (DragonBack.code v, n) names_df
         | None => forall n, ~ In (DragonBack.code v, n) names_df
         end.
Proof.
  unfold DragonBack.merge. cbn [flat_map]. rewrite app_nil_r.
  set (keep := fun p : string * string =>
                 String.eqb (fst p) (DragonBack.code v)).
  assert (Hin : forall c n, In (c, n) (filter keep names_df)
                            <-> c = DragonBack.code v /\ In (c, n) names_df).
  { intros c n. rewrite filter_In. unfold keep. cbn [fst].
    rewrite String.eqb_eq. tauto. }
  destruct (filter keep names_df) as [|p matches] eqn:E.
  - cbn [In]. split.
    + intros [<-|[]]. cbn. split; [reflexivity|].
      intros n Hn. apply (Hin (DragonBack.code v) n). auto.
    + intros [Hv Hname]. left. destruct r as [v' [n|]]; cbn in *.
      * exfalso. apply (Hin (DragonBack.code v) n). subst. auto.
      * now subst.
  - rewrite in_map_iff. split.
    + intros ([c n] & <- & Hp). cbn. split; [reflexivity|].
      apply Hin in Hp. destruct Hp as [-> Hp]. exact Hp.
    + intros [Hv Hname]. destruct r as [v' [n|]]; cbn in *; subst v'.
      * exists (DragonBack.code v, n). split; [reflexivity|].
        apply Hin. auto.
      * exfalso. destruct p as [c n].
        assert (Hp : In (c, n) ((c, n) :: matches)) by now left.
        apply Hin in Hp. destruct Hp as [-> Hp]. exact (Hname n Hp).
Qed.

Lemma filter_code_nodup (names_df : list (string * string)) (c : string) :
  NoDup (map fst names_df) ->
  List.length (filter (fun p => String.eqb (fst p) c) names_df) <= 1.
Proof.
  induction names_df as [|[k n] t IH]; intros Hnd; cbn; [lia|].
  inversion Hnd as [|? ? Hnotin Hnd']; subst.
  destruct (String.eqb k c) eqn:E; [|now apply IH].
  apply String.eqb_eq in E. subst k. cbn [List.length].
  assert (Hnone : filter (fun p => String.eqb (fst p) c) t = []).
  { clear - Hnotin. induction t as [|[k n'] t IH]; cbn; [reflexivity|].
    cbn in Hnotin. destruct (String.eqb k c) eqn:E.
    - apply String.eqb_eq in E. tauto.
    - apply IH. tauto. }
  rewrite Hnone. cbn. lia.
Qed.

Lemma merge_cons (v : DragonBack.Verdict) (results : list DragonBack.Verdict)
    (names_df : list (string * string)) :
  DragonBack.merge (v :: results) names_df
  = DragonBack.merge [v] names_df ++ DragonBack.merge results names_df.
Proof. unfold DragonBack.merge. cbn [flat_map]. now rewrite app_nil_r. Qed.

Lemma merge_one_length (v : DragonBack.Verdict)
    (names_df : list (string * string)) :
  List.length (DragonBack.merge [v] names_df)
  = Nat.max 1
      (List.length
         (filter (fun p => String.eqb (fst p) (DragonBack.code v)) names_df)).
Proof.
  unfold DragonBack.merge. cbn [flat_map]. rewrite app_nil_r.
  destruct (filter _ names_df) as [|p matches]; [reflexivity|].
  rewrite length_map. cbn [List.length]. lia.
Qed.

Lemma merge_one_verdicts (v : DragonBack.Verdict)
    (names_df : list (string * string)) :
  Forall (fun r => DragonBack.verdict r = v) (DragonBack.merge [v] names_df).
Proof.
  apply Forall_forall. intros r Hr. now apply merge_row in Hr.
Qed.

Lemma In_merge (results : list DragonBack.Verdict)
    (names_df : list (string * string)) (r : DragonBack.OutRow) :
  In r (DragonBack.merge results names_df)
  <-> In (DragonBack.verdict r) results
      /\ match DragonBack.name r with
         | Some n => In (DragonBack.code (DragonBack.verdict r), n) names_df
         | None =>
             forall n,
               ~ In (DragonBack.code (DragonBack.verdict r), n) names_df
         end.
Proof.
  induction results as [|v more IH].
  - cbn. tauto.
  - rewrite merge_cons, in_app_iff, IH, merge_row. cbn [In]. split.
    + intros [[Hv Hn]|[Hv Hn]]; [subst v|]; auto.
    + intros [[Hv|Hv] Hn]; [left; subst v|right]; auto.
Qed.

Lemma merge_length_ge (results : list DragonBack.Verdict)
    (names_df : list (string * string)) :
  List.length results <= List.length (DragonBack.merge results names_df).
Proof.
  induction results as [|v more IH]; [cbn; lia|].
  rewrite merge_cons, length_app, merge_one_length. cbn [List.length]. lia.
Qed.

(** X8. The names join of Profile A is a left join on the code: its rows
    are the verdicts, each with a name the names frame has for its code, or
    with none when the frame has no row of that code; a verdict comes once
    per names row of its code, so a code listed twice doubles its verdict;
    when the codes of the names frame are pairwise different, the rows are
    the verdicts, one each, in their order. *)
Theorem merge_is_a_left_join_on_code
    (results : list DragonBack.Verdict) (names_df : list (string * string)) :
  (forall r,
     In r (DragonBack.merge results names_df)
     <-> In (DragonBack.verdict r) results
         /\ match DragonBack.name r with
            | Some n => In (DragonBack.code (DragonBack.verdict r), n) names_df
            | None =>
                forall n,
                  ~ In (DragonBack.code (DragonBack.verdict r), n) names_df
            end)
  /\ (forall v more,
        DragonBack.merge (v :: more) names_df
        = DragonBack.merge [v] names_df ++ DragonBack.merge more names_df
        /\ Forall (fun r => DragonBack.verdict r = v)
             (DragonBack.merge [v] names_df)
        /\ List.length (DragonBack.merge [v] names_df)
           = Nat.max 1
               (List.length
                  (filter (fun p => String.eqb (fst p) (DragonBack.code v))
                     names_df)))
  /\ List.length results <= List.length (DragonBack.merge results names_df)
  /\ (NoDup (map fst names_df) ->
      map DragonBack.verdict (DragonBack.merge results names_df) = results).
Proof.
  split; [intros r; apply In_merge|].
  split.
  { intros v more. split; [apply merge_cons|].
    split; [apply merge_one_verdicts|apply merge_one_length]. }
  split; [apply merge_length_ge|].
  intros Hnd. induction results as [|v more IH]; [reflexivity|].
  rewrite merge_cons, map_app, IH. clear IH.
  pose proof (merge_one_length v names_df) as Hlen.
  pose proof (filter_code_nodup names_df (DragonBack.code v) Hnd) as Hle.
  pose proof (merge_one_verdicts v names_df) as Hall.
  destruct (DragonBack.merge [v] names_df) as [|r [|r' t]];
    cbn [List.length] in Hlen; [lia| |lia].
  inversion Hall; subst. reflexivity.
Qed.

Lemma In_head5 {A : Type} (l : list A) (a : A) :
  In a (DragonBack.head5 l) -> In a l.
Proof.
  unfold DragonBack.head5. intros H.
  rewrite <- (firstn_skipn 5 l). apply in_or_app. now left.
Qed.

Lemma main_rows
    (sort_values : list DragonBack.OutRow -> list DragonBack.OutRow)
    (stock_files : list (string * outcome DataFrame))
    (names : list (string * string)) :
  sorts_by_score_desc sort_values ->
  exists results,
    Forall2
      (fun f r => DragonBack.analyze_stock (fst f) (snd f) = Return r)
      stock_files results
    /\ let final_df :=
         DragonBack.merge (DragonBack.not_none results)
           (map (fun p => (zfill 6 (fst p), snd p)) names) in
       DragonBack.main sort_values stock_files (Some names)
       = Return (match DragonBack.not_none results with
                 | [] => None
                 | _ :: _ => Some (DragonBack.head5 (sort_values final_df))
                 end)
       /\ Permutation final_df (sort_values final_df).
Proof.
  intros Hsort.
  destruct (pool_map_results stock_files) as (results & Hmap & Hall).
  exists results. split; [exact Hall|]. cbv zeta. split.
  - unfold DragonBack.main. rewrite Hmap. cbn [bind].
    now destruct (DragonBack.not_none results).
  - apply Hsort.
Qed.

Lemma Forall2_In_r {A B : Type} (R : A -> B -> Prop) (l : list A)
    (l' : list B) (b : B) :
  Forall2 R l l' -> In b l' -> exists a, In a l /\ R a b.
Proof.
  induction 1 as [|a b' l l' Hab Hall IH]; cbn; [tauto|].
  intros [<-|Hin].
  - exists a. auto.
  - destruct (IH Hin) as (a' & Ha & HR). exists a'. auto.
Qed.

Lemma Forall2_In_l {A B : Type} (R : A -> B -> Prop) (l : list A)
    (l' : list B) (a : A) :
  Forall2 R l l' -> In a l -> exists b, In b l' /\ R a b.
Proof.
  induction 1 as [|a' b l l' Hab Hall IH]; cbn; [tauto|].
  intros [<-|Hin].
  - exists b. auto.
  - destruct (IH Hin) as (b' & Hb & HR). exists b'. auto.
Qed.



(** X10. The name of a saved row of Profile A: the codes of the names file
    are filled with zeros to 6 characters, the code of a verdict is the file
    name as it is, and a row gets a name only when the two are equal.  So a
    file named by a code of fewer than 6 characters, 5.csv for 000005, is
    saved without a name whatever the names file holds. *)
Theorem saved_name_needs_the_code_of_six_characters
    (sort_values : list DragonBack.OutRow -> list DragonBack.OutRow)
    (stock_files : list (string * outcome DataFrame))
    (names : list (string * string)) (rows : list DragonBack.OutRow) :
  sorts_by_score_desc sort_values ->
  DragonBack.main sort_values stock_files (Some names) = Return (Some rows) ->
  forall r,
    In r rows ->
    match DragonBack.name r with
    | Some n =>
        exists c,
          In (c, n) names
          /\ zfill 6 c = DragonBack.code (DragonBack.verdict r)
    | None =>
        forall c n,
          In (c, n) names -> zfill 6 c <> DragonBack.code (DragonBack.verdict r)
    end
    /\ (String.length (DragonBack.code (DragonBack.verdict r)) < 6 ->
        DragonBack.name r = None).
Proof.
  intros Hsort Hmain r Hr.
  destruct (main_rows sort_values stock_files names Hsort)
    as (results & _ & Hrows & Hperm).
  cbv zeta in Hrows, Hperm. rewrite Hrows in Hmain.
  destruct (DragonBack.not_none results) as [|v t]; [discriminate|].
  injection Hmain as <-. apply In_head5 in Hr.
  apply (Permutation_in _ (Permutation_sym Hperm)) in Hr.
  apply In_merge in Hr. destruct Hr as [_ Hname].
  assert (Hshape :
            match DragonBack.name r with
            | Some n =>
                exists c,
                  In (c, n) names
                  /\ zfill 6 c = DragonBack.code (DragonBack.verdict r)
            | None =>
                forall c n,
                  In (c, n) names ->
                  zfill 6 c <> DragonBack.code (DragonBack.verdict r)
            end).
  { destruct (DragonBack.name r) as [n|].
    - apply in_map_iff in Hname. destruct Hname as ([c n'] & [= Hc Hn] & Hin).
      exists c. subst n'. auto.
    - intros c n Hin Hc. apply (Hname n). apply in_map_iff.
      exists (c, n). cbn [fst snd]. rewrite Hc. auto. }
  split; [exact Hshape|]. intros Hshort.
  destruct (DragonBack.name r) as [n|]; [|reflexivity].
  destruct Hshape as (c & _ & Hc). rewrite <- Hc, zfill_length in Hshort. lia.
Qed.

Lemma saved_name_needs_the_code_of_six_characters_witness :
  DragonBack.main DragonBack.stable_sort_desc
    [("stock_data/5.csv"%string, Return (frame_of bars_70))]
    (Some [("5"%string, "Alpha"%string)])
  = Return (Some [unnamed_row_5])
  /\ DragonBack.name unnamed_row_5 = None.
Proof.
  assert (Hmain : DragonBack.main DragonBack.stable_sort_desc
                    [("stock_data/5.csv"%string, Return (frame_of bars_70))]
                    (Some [("5"%string, "Alpha"%string)])
                  = Return (Some [unnamed_row_5]))
    by (vm_compute; reflexivity).
  split; [exact Hmain|].
  apply (saved_name_needs_the_code_of_six_characters
           DragonBack.stable_sort_desc
           [("stock_data/5.csv"%string, Return (frame_of bars_70))]
           [("5"%string, "Alpha"%string)] _ stable_sort_desc_sorts Hmain).
  - now left.
  - vm_compute. lia.
Defined.

(* ================================================================== *)
(** ** dragon_back_strategy: advice, universe and the rows read *)

Lemma screen_A_verdict (file_path : string) (bars : list Bar) (ref : Bar)
    (v : DragonBack.Verdict) :
  screen_A file_path bars ref = Some v ->
  let c := close (latest bars) in
  let g := ladder (Qlt_bool (sma5 bars) c)
             (Qlt_bool (volume (previous bars)) (volume (latest bars))) in
  v = DragonBack.mkVerdict (DragonBack.code_of file_path) (Fin c)
        (round2 (Fin (open ref))) (fst g) (snd g)
  /\ code_excluded_A (DragonBack.code_of file_path) = false
  /\ (5 <= c <= 20)%Q.
Proof.
  intros H c g. unfold screen_A in H. fold c in H.
  destruct (code_excluded_A (DragonBack.code_of file_path)); [discriminate|].
  destruct (Qle_bool 5 c) eqn:E5; [|discriminate].
  destruct (Qle_bool c 20) eqn:E20; [|discriminate].
  cbn [andb negb] in H.
  destruct (fle _ _ && flt _ _); [|discriminate].
  injection H as <-. split; [reflexivity|]. split; [reflexivity|].
  apply Qle_bool_iff in E5, E20. auto.
Qed.



(** X12. Every verdict of Profile A carries the code of its file, a code
    that neither starts with 30 or 688 nor contains ST, and a latest close
    between 5 and 20, the close of the last row of a file of at least 30
    rows whose open, close and volume columns are all there and numeric. *)
Theorem verdict_of_analyze_stock_is_in_the_universe
    (file_path : string) (csv : outcome DataFrame) (v : DragonBack.Verdict) :
  DragonBack.analyze_stock file_path csv = Return (Some v) ->
  DragonBack.code v = DragonBack.code_of file_path
  /\ startswith (DragonBack.code v) "30" = false
  /\ startswith (DragonBack.code v) "688" = false
  /\ contains "ST" (DragonBack.code v) = false
  /\ exists df,
       csv = Return df /\ numeric df /\ 30 <= len df
       /\ DragonBack.latest_close v = Fin (close (latest (rows df)))
       /\ (5 <= close (latest (rows df)) <= 20)%Q.
Proof.
  intros H.
  destruct (analyze_stock_Some _ _ _ H)
    as (df & ref & -> & Hnum & Hlen & _ & Hv).
  destruct (screen_A_verdict _ _ _ _ Hv) as (-> & Hcode & Hband).
  cbn [DragonBack.code DragonBack.latest_close].
  unfold code_excluded_A in Hcode.
  apply orb_false_iff in Hcode. destruct Hcode as [Hcode Hst].
  apply orb_false_iff in Hcode. destruct Hcode as [H30 H688].
  repeat (split; [assumption || reflexivity|]).
  exists df. auto.
Qed.

Lemma verdict_of_analyze_stock_is_in_the_universe_witness :
  DragonBack.code verdict_70 = "600000"%string
  /\ contains "ST" (DragonBack.code verdict_70) = false.
Proof.
  assert (H70 : DragonBack.analyze_stock "stock_data/600000.csv"
                  (Return (frame_of bars_70)) = Return (Some verdict_70))
    by (vm_compute; reflexivity).
  destruct (verdict_of_analyze_stock_is_in_the_universe _ _ _ H70)
    as (Hcode & _ & _ & Hst & _).
  split; [exact Hcode|exact Hst].
Defined.

Lemma latest_lastn (n : nat) (bars : list Bar) :
  1 <= n -> latest (lastn n bars) = latest bars.
Proof.
  intros Hn. unfold latest.
  destruct bars as [|b t]; [reflexivity|].
  assert (Hne : lastn n (b :: t) <> []).
  { intros E. apply (f_equal (@List.length Bar)) in E.
    rewrite lastn_length in E. cbn in E. lia. }
  pose proof (nth_error_last (lastn n (b :: t)) no_bar Hne) as H1.
  rewrite nth_error_lastn, lastn_length in H1.
  assert (Hcons : b :: t <> []) by discriminate.
  pose proof (nth_error_last (b :: t) no_bar Hcons) as H2.
  replace (List.length (b :: t) - n
           + (Nat.min n (List.length (b :: t)) - 1))
    with (List.length (b :: t) - 1) in H1 by (cbn [List.length]; lia).
  congruence.
Qed.

Lemma previous_lastn (n : nat) (bars : list Bar) :
  2 <= n -> 2 <= List.length bars ->
  previous (lastn n bars) = previous bars.
Proof.
  intros Hn Hlen. unfold previous.
  assert (H1 : nth_error (lastn n bars) (List.length (lastn n bars) - 2)
               = nth_error bars (List.length bars - 2)).
  { rewrite nth_error_lastn, lastn_length. f_equal. lia. }
  assert (H2 : List.length bars - 2 < List.length bars) by lia.
  rewrite (nth_error_nth' bars no_bar H2) in H1.
  now apply nth_error_nth.
Qed.

Lemma reference_day_lastn (n : nat) (bars : list Bar) (ref : Bar) :
  20 <= n -> reference_day (lastn n bars) ref <-> reference_day bars ref.
Proof.
  intros Hn. unfold reference_day, window. now rewrite lastn_lastn.
Qed.

Lemma screen_A_lastn (file_path : string) (n : nat) (bars : list Bar)
    (ref : Bar) :
  20 <= n -> 2 <= List.length bars ->
  screen_A file_path (lastn n bars) ref = screen_A file_path bars ref.
Proof.
  intros Hn Hlen. unfold screen_A, sma5, window.
  rewrite latest_lastn, previous_lastn, lastn_lastn by lia. reflexivity.
Qed.

(** X13. [analyze_stock] reads the last 20 rows only, once the file has
    30: two well-formed files of at least 30 rows that end in the same 20
    rows get the same result for the same path, whatever came before. *)
Theorem analyze_stock_reads_the_last_20_rows
    (file_path : string) (df1 df2 : DataFrame) :
  numeric df1 -> numeric df2 ->
  30 <= len df1 -> 30 <= len df2 ->
  lastn 20 (rows df1) = lastn 20 (rows df2) ->
  DragonBack.analyze_stock file_path (Return df1)
  = DragonBack.analyze_stock file_path (Return df2).
Proof.
  intros Hnum1 Hnum2 Hlen1 Hlen2 Hsame.
  destruct (analyze_stock_numeric file_path df1 Hnum1 Hlen1)
    as (ref1 & Href1 & ->).
  destruct (analyze_stock_numeric file_path df2 Hnum2 Hlen2)
    as (ref2 & Href2 & ->).
  unfold len in Hlen1, Hlen2.
  apply (reference_day_lastn 20) in Href1, Href2; try lia.
  rewrite Hsame in Href1.
  rewrite (reference_day_unique _ _ _ Href1 Href2).
  rewrite <- (screen_A_lastn file_path 20 (rows df1)) by lia.
  rewrite <- (screen_A_lastn file_path 20 (rows df2)) by lia.
  now rewrite Hsame.
Qed.

(* ================================================================== *)
(** ** volume_bottom_scanner: universe, row order and the rows read *)

Lemma analyze_stock_reads_the_last_20_rows_witness :
  DragonBack.analyze_stock "stock_data/600000.csv" (Return (frame_of bars_70))
  = DragonBack.analyze_stock "stock_data/600000.csv"
      (Return (frame_of (mkBar "2023-12-29" 1 99 5000 :: bars_70))).
Proof.
  apply analyze_stock_reads_the_last_20_rows.
  - apply frame_of_numeric.
  - apply frame_of_numeric.
  - vm_compute. lia.
  - vm_compute. lia.
  - vm_compute. reflexivity.
Defined.

Lemma name_marked_false (s : string) :
  name_marked s = false ->
  contains "ST" s = false /\ contains "PT" s = false
  /\ contains "*" s = false.
Proof.
  unfold name_marked. intros H.
  apply orb_false_iff in H. destruct H as [H Hstar].
  apply orb_false_iff in H. tauto.
Qed.

(** X14. Every verdict of Profile B carries the code of its file filled
    to 6 characters, a code that starts with 60 or 00; the name the
    dictionary has for that code (the default when it has none), a string
    without ST, PT or an asterisk; and a latest close between 5 and 15,
    the close of the last row by date of a file of at least 120 rows that
    has the date column and numeric close and volume columns. *)
Theorem verdict_of_analyze_stock_file_is_in_the_universe
    (sort_values : list Bar -> list Bar) (names : VolumeBottom.names_dict)
    (file_path : string) (csv : outcome DataFrame)
    (v : VolumeBottom.Verdict) :
  sorts_by_date sort_values ->
  VolumeBottom.analyze_stock_file sort_values names file_path csv
  = Return (Some v) ->
  VolumeBottom.Code v = VolumeBottom.code_of file_path
  /\ 6 <= String.length (VolumeBottom.Code v)
  /\ (startswith (VolumeBottom.Code v) "60" = true
      \/ startswith (VolumeBottom.Code v) "00" = true)
  /\ VolumeBottom.Name v
     = VolumeBottom.dict_get names (VolumeBottom.code_of file_path)
         (VolumeBottom.NameStr VolumeBottom.UNKNOWN_NAME)
  /\ (exists s,
        VolumeBottom.Name v = VolumeBottom.NameStr s
        /\ contains "ST" s = false /\ contains "PT" s = false
        /\ contains "*" s = false)
  /\ exists df,
       csv = Return df /\ numeric_B df /\ 120 <= len df
       /\ VolumeBottom.Latest_Close v
          = Fin (close (latest (sort_values (rows df))))
       /\ (5 <= close (latest (sort_values (rows df))) <= 15)%Q.
Proof.
  intros Hsort H.
  destruct (analyze_stock_file_Some _ _ _ _ _ H)
    as (_ & (s & Hs & Hmarked) & Hcode & df & -> & Hnum & Hlen & Hv).
  destruct (screen_B_Some _ _ _ _ Hv) as (-> & Hband & _).
  cbn [VolumeBottom.Code VolumeBottom.Name VolumeBottom.Latest_Close].
  split; [reflexivity|]. split.
  { unfold VolumeBottom.code_of. rewrite zfill_length. lia. }
  split; [now apply orb_true_iff|]. split; [reflexivity|]. split.
  { exists s. split; [exact Hs|]. now apply name_marked_false. }
  exists df. split; [reflexivity|]. split; [exact Hnum|].
  split; [|auto].
  unfold len. rewrite (Permutation_length (proj1 (Hsort (rows df)))).
  exact Hlen.
Qed.

Lemma verdict_of_analyze_stock_file_is_in_the_universe_witness :
  VolumeBottom.Code verdict_120 = "600000"%string
  /\ VolumeBottom.Name verdict_120
     = VolumeBottom.NameStr VolumeBottom.UNKNOWN_NAME.
Proof.
  assert (H : VolumeBottom.analyze_stock_file VolumeBottom.stable_sort_by_date
                [] "stock_data/600000.csv" (Return (frame_of bars_120))
              = Return (Some verdict_120)) by (vm_compute; reflexivity).
  destruct (verdict_of_analyze_stock_file_is_in_the_universe _ _ _ _ _
              stable_sort_by_date_sorts H) as (Hcode & _ & _ & Hname & _).
  split; [exact Hcode|exact Hname].
Defined.

Lemma date_order_strict (l : list Bar) :
  NoDup (map date l) ->
  StronglySorted (fun a b => String.leb (date a) (date b) = true) l ->
  StronglySorted (fun a b => String.ltb (date a) (date b) = true) l.
Proof.
  induction l as [|a t IH]; intros Hnd Hs; [constructor|].
  cbn in Hnd. inversion Hnd as [|? ? Hnotin Hnd']; subst.
  apply StronglySorted_inv in Hs. destruct Hs as [Ht Ha].
  constructor; [now apply IH|].
  rewrite Forall_forall in *. intros b Hb.
  apply string_ltb_iff. destruct (proj1 (string_leb_iff _ _) (Ha b Hb))
    as [E|Hlt]; [|exact Hlt].
  exfalso. apply Hnotin. rewrite E. now apply in_map.
Qed.

Lemma sorted_rows_unique (sort1 sort2 : list Bar -> list Bar)
    (rows1 rows2 : list Bar) :
  sorts_by_date sort1 -> sorts_by_date sort2 ->
  NoDup (map date rows1) -> Permutation rows1 rows2 ->
  sort1 rows1 = sort2 rows2.
Proof.
  intros H1 H2 Hnd Hperm.
  destruct (H1 rows1) as [Hp1 Hs1]. destruct (H2 rows2) as [Hp2 Hs2].
  apply (sorted_perm_unique
           (fun a b => String.leb (date a) (date b) = true)
           (fun a b => String.ltb (date a) (date b) = true)).
  - intros a b. apply string_ltb_not_leb.
  - apply date_order_strict; [|exact Hs1].
    eapply Permutation_NoDup; [|exact Hnd]. now apply Permutation_map.
  - exact Hs2.
  - eapply perm_trans; [apply Permutation_sym, Hp1|].
    eapply perm_trans; [exact Hperm|exact Hp2].
Qed.

Lemma strict_dates_nodup (l : list Bar) :
  StronglySorted (fun a b => String.ltb (date a) (date b) = true) l ->
  NoDup (map date l).
Proof.
  induction 1 as [|a t Ht IH Ha]; cbn; constructor; [|exact IH].
  intros Hin. apply in_map_iff in Hin. destruct Hin as (b & E & Hb).
  rewrite Forall_forall in Ha.
  apply (string_ltb_not_leb _ _ (Ha b Hb)).
  apply string_leb_iff. now left.
Qed.

(** X15. For a file whose dates are pairwise different, neither the order
    of its rows nor the algorithm of the sort matters to
    [analyze_stock_file]: two frames of the same columns whose rows are a
    rearrangement of each other get the same result, under any two sorts
    that order by date. *)
Theorem row_order_is_immaterial_for_distinct_dates
    (sort1 sort2 : list Bar -> list Bar) (names : VolumeBottom.names_dict)
    (file_path : string) (df1 df2 : DataFrame) :
  sorts_by_date sort1 -> sorts_by_date sort2 ->
  NoDup (map date (rows df1)) ->
  Permutation (rows df1) (rows df2) ->
  date_col df1 = date_col df2 ->
  open_dtype df1 = open_dtype df2 ->
  close_dtype df1 = close_dtype df2 ->
  volume_dtype df1 = volume_dtype df2 ->
  VolumeBottom.analyze_stock_file sort1 names file_path (Return df1)
  = VolumeBottom.analyze_stock_file sort2 names file_path (Return df2).
Proof.
  intros H1 H2 Hnd Hperm Hdate Hopen Hclose Hvolume.
  assert (Hsorted : VolumeBottom.sort_by_date sort1 df1
                    = VolumeBottom.sort_by_date sort2 df2).
  { unfold VolumeBottom.sort_by_date.
    rewrite (sorted_rows_unique sort1 sort2 _ _ H1 H2 Hnd Hperm).
    now rewrite Hdate, Hopen, Hclose, Hvolume. }
  unfold VolumeBottom.analyze_stock_file, VolumeBottom.technical_screen.
  cbn [bind]. now rewrite Hsorted.
Qed.

Lemma row_order_is_immaterial_for_distinct_dates_witness :
  VolumeBottom.analyze_stock_file VolumeBottom.stable_sort_by_date []
    "stock_data/600000.csv" (Return (frame_of (rev bars_120)))
  = Return (Some verdict_120).
Proof.
  rewrite <- (row_order_is_immaterial_for_distinct_dates
                VolumeBottom.stable_sort_by_date
                VolumeBottom.stable_sort_by_date []
                "stock_data/600000.csv"
                (frame_of bars_120) (frame_of (rev bars_120))
                stable_sort_by_date_sorts stable_sort_by_date_sorts).
  - vm_compute. reflexivity.
  - apply strict_dates_nodup, bars_120_strictly_sorted.
  - apply Permutation_rev.
  - reflexivity.
  - reflexivity.
  - reflexivity.
  - reflexivity.
Defined.





Lemma screen_B_lastn (code : string) (name : VolumeBottom.name_value)
    (n : nat) (bars : list Bar) :
  120 <= n ->
  screen_B code name (lastn n bars) = screen_B code name bars.
Proof.
  intros Hn. unfold screen_B, window.
  rewrite latest_lastn, !lastn_lastn by lia. reflexivity.
Qed.

(** X17. [analyze_stock_file] reads the last 120 rows by date only, once
    the file has 120: two well-formed files of at least 120 rows whose
    sorted rows end in the same 120 get the same result for the same path
    and names, whatever came before. *)
Theorem analyze_stock_file_reads_the_last_120_rows
    (sort_values : list Bar -> list Bar) (names : VolumeBottom.names_dict)
    (file_path : string) (df1 df2 : DataFrame) :
  numeric_B df1 -> numeric_B df2 ->
  120 <= List.length (sort_values (rows df1)) ->
  120 <= List.length (sort_values (rows df2)) ->
  lastn 120 (sort_values (rows df1)) = lastn 120 (sort_values (rows df2)) ->
  VolumeBottom.analyze_stock_file sort_values names file_path (Return df1)
  = VolumeBottom.analyze_stock_file sort_values names file_path (Return df2).
Proof.
  intros Hnum1 Hnum2 Hlen1 Hlen2 Hsame.
  unfold VolumeBottom.analyze_stock_file.
  rewrite !technical_screen_numeric by assumption.
  rewrite <- (screen_B_lastn _ _ 120 (sort_values (rows df1))) by lia.
  rewrite <- (screen_B_lastn _ _ 120 (sort_values (rows df2))) by lia.
  now rewrite Hsame.
Qed.

Lemma analyze_stock_file_reads_the_last_120_rows_witness :
  VolumeBottom.analyze_stock_file VolumeBottom.stable_sort_by_date []
    "stock_data/600000.csv"
    (Return (frame_of (mkBar "2023-12-29" 1 99 5000 :: bars_120)))
  = Return (Some verdict_120).
Proof.
  rewrite (analyze_stock_file_reads_the_last_120_rows
             VolumeBottom.stable_sort_by_date [] "stock_data/600000.csv"
             (frame_of (mkBar "2023-12-29" 1 99 5000 :: bars_120))
             (frame_of bars_120)).
  - vm_compute. reflexivity.
  - repeat split.
  - repeat split.
  - vm_compute. lia.
  - vm_compute. lia.
  - vm_compute. reflexivity.
Defined.

(* ================================================================== *)
(** ** volume_bottom_scanner: [load_stock_names] *)

Lemma to_dict_rev (rows : list (string * VolumeBottom.name_value)) :
  VolumeBottomMain.to_dict rows = rev rows.
Proof.
  unfold VolumeBottomMain.to_dict.
  assert (H : forall acc,
            fold_left
              (fun d row =>
                 VolumeBottomMain.dict_set d (fst row) (snd row)) rows acc
            = rev rows ++ acc).
  { induction rows as [|[k v] t IH]; intros acc; cbn; [reflexivity|].
    rewrite IH, <- app_assoc. reflexivity. }
  rewrite H. apply app_nil_r.
Qed.

Lemma dict_get_skip (d1 d2 : VolumeBottom.names_dict) (key : string)
    (default : VolumeBottom.name_value) :
  (forall row, In row d1 -> fst row <> key) ->
  VolumeBottom.dict_get (d1 ++ d2) key default
  = VolumeBottom.dict_get d2 key default.
Proof.
  induction d1 as [|[k v] t IH]; intros H; cbn; [reflexivity|].
  destruct (String.eqb k key) eqn:E.
  - apply String.eqb_eq in E. exfalso. apply (H (k, v)); [now left|exact E].
  - apply IH. intros row Hrow. apply H. now right.
Qed.

Lemma dict_get_absent (d : VolumeBottom.names_dict) (key : string)
    (default : VolumeBottom.name_value) :
  (forall row, In row d -> fst row <> key) ->
  VolumeBottom.dict_get d key default = default.
Proof.
  intros H. rewrite <- (app_nil_r d). now rewrite dict_get_skip.
Qed.

Lemma dict_get_last (pre post : list (string * VolumeBottom.name_value))
    (key : string) (v default : VolumeBottom.name_value) :
  (forall row, In row post -> fst row <> key) ->
  VolumeBottom.dict_get
    (VolumeBottomMain.to_dict (pre ++ (key, v) :: post)) key default = v.
Proof.
  intros H. rewrite to_dict_rev, rev_app_distr. cbn [rev].
  rewrite <- app_assoc, dict_get_skip.
  - cbn. now rewrite String.eqb_refl.
  - intros row Hrow. apply H. now apply in_rev.
Qed.

Lemma rstrip_blank_end (s : string) (c : ascii) :
  isspace c = true -> rstrip (s ++ String c EmptyString) = rstrip s.
Proof.
  intros Hc. induction s as [|a r IH]; cbn [append rstrip].
  - now rewrite Hc.
  - now rewrite IH.
Qed.

Lemma strip_blank_end (s : string) (c : ascii) :
  isspace c = true -> strip (s ++ String c EmptyString) = strip s.
Proof.
  intros Hc. unfold strip. induction s as [|a r IH]; cbn [append lstrip].
  - now rewrite Hc.
  - destruct (isspace a); [exact IH|].
    apply (rstrip_blank_end (String a r) c Hc).
Qed.

Lemma strip_blank_start (s : string) (c : ascii) :
  isspace c = true -> strip (String c s) = strip s.
Proof. intros Hc. unfold strip. cbn [lstrip]. now rewrite Hc. Qed.

(** X18. [load_stock_names] never raises: when the names file cannot be
    read, or has not exactly two columns, the dictionary is left empty.
    Otherwise a code, stripped of the blanks around it and filled with
    zeros to 6 characters, is looked up to the name of the last row of
    that code, and to the default when no row has it. *)
Theorem load_stock_names_keeps_the_last_name_of_a_code :
  (forall names_csv,
     exists d, VolumeBottomMain.load_stock_names names_csv = Return d)
  /\ (forall e, VolumeBottomMain.load_stock_names (Raise e) = Return [])
  /\ (forall names_df,
        VolumeBottomMain.n_columns names_df <> 2 ->
        VolumeBottomMain.load_stock_names (Return names_df) = Return [])
  /\ (forall rows,
        exists d,
          VolumeBottomMain.load_stock_names
            (Return (VolumeBottomMain.mkNames 2 rows)) = Return d
          /\ (forall key default,
                (forall row, In row rows ->
                   zfill 6 (strip (fst row)) <> key) ->
                VolumeBottom.dict_get d key default = default)
          /\ (forall pre c n post default,
                rows = pre ++ (c, n) :: post ->
                (forall row, In row post ->
                   zfill 6 (strip (fst row)) <> zfill 6 (strip c)) ->
                VolumeBottom.dict_get d (zfill 6 (strip c)) default = n))
  /\ (forall c b,
        isspace b = true ->
        strip (String b c) = strip c
        /\ strip (c ++ String b EmptyString) = strip c).
Proof.
  split.
  { intros names_csv.
    unfold VolumeBottomMain.load_stock_names, try_except.
    destruct (VolumeBottomMain.load_stock_names_body names_csv); eauto. }
  split; [reflexivity|]. split.
  { intros names_df Hcols.
    unfold VolumeBottomMain.load_stock_names,
      VolumeBottomMain.load_stock_names_body.
    cbn [bind]. apply Nat.eqb_neq in Hcols. now rewrite Hcols. }
  split.
  2:{ intros c b Hb. split;
        [now apply strip_blank_start|now apply strip_blank_end]. }
  intros rows.
  set (coded := map (fun row : string * VolumeBottom.name_value =>
                       (zfill 6 (strip (fst row)), snd row)) rows).
  exists (VolumeBottomMain.to_dict coded).
  split; [reflexivity|]. split.
  - intros key default Hnone. apply dict_get_absent.
    intros row Hrow. rewrite to_dict_rev in Hrow. apply in_rev in Hrow.
    apply in_map_iff in Hrow. destruct Hrow as (row' & <- & Hrow').
    cbn [fst]. now apply Hnone.
  - intros pre c n post default -> Hpost. unfold coded.
    rewrite map_app. cbn [map fst snd]. apply dict_get_last.
    intros row Hrow. apply in_map_iff in Hrow.
    destruct Hrow as (row' & <- & Hrow'). cbn [fst]. now apply Hpost.
Qed.

(* ================================================================== *)
(** ** volume_bottom_scanner: the scan and [main] *)

Lemma startswith_60_00_not_30 (s : string) :
  (startswith s "60" || startswith s "00") = true ->
  startswith s "30" = false.
Proof.
  unfold startswith. destruct s as [|a r]; [discriminate|].
  cbn [String.prefix].
  destruct (ascii_dec "6" a) as [<-|H6]; [reflexivity|].
  destruct (ascii_dec "0" a) as [<-|H0]; [reflexivity|]. discriminate.
Qed.

(** [analyze_stock_file] raises when the name is an empty cell and the
    code does not start with 30, and only then. *)
Lemma analyze_stock_file_raises (sort_values : list Bar -> list Bar)
    (names : VolumeBottom.names_dict) (file_path : string)
    (csv : outcome DataFrame) (e : exn) :
  VolumeBottom.analyze_stock_file sort_values names file_path csv = Raise e
  <-> startswith (VolumeBottom.code_of file_path) "30" = false
      /\ VolumeBottom.dict_get names (VolumeBottom.code_of file_path)
           (VolumeBottom.NameStr VolumeBottom.UNKNOWN_NAME)
         = VolumeBottom.NameNaN
      /\ e = TypeError.
Proof.
  unfold VolumeBottom.analyze_stock_file.
  destruct (startswith (VolumeBottom.code_of file_path) "30");
    [split; [discriminate|intros [H _]; discriminate]|].
  rewrite name_contains_marked.
  destruct (VolumeBottom.dict_get names _ _) as [s|]; cbn [bind].
  - split; [|intros (_ & H & _); discriminate].
    destruct (name_marked s); [discriminate|].
    destruct (negb _); [discriminate|].
    unfold try_except.
    destruct (VolumeBottom.technical_screen _ _ _ _) as [r|[]]; discriminate.
  - split; [intros [= <-]; auto|intros (_ & _ & ->); reflexivity].
Qed.

(** A file whose code starts neither with 60 nor with 00 gets no verdict
    when its name is a string. *)
Lemma analyze_stock_file_other_code (sort_values : list Bar -> list Bar)
    (names : VolumeBottom.names_dict) (file_path : string)
    (csv : outcome DataFrame) (s : string) :
  (startswith (VolumeBottom.code_of file_path) "60"
   || startswith (VolumeBottom.code_of file_path) "00") = false ->
  VolumeBottom.dict_get names (VolumeBottom.code_of file_path)
    (VolumeBottom.NameStr VolumeBottom.UNKNOWN_NAME) = VolumeBottom.NameStr s ->
  VolumeBottom.analyze_stock_file sort_values names file_path csv
  = Return None.
Proof.
  intros Hcode Hname. unfold VolumeBottom.analyze_stock_file.
  destruct (startswith (VolumeBottom.code_of file_path) "30"); [reflexivity|].
  rewrite name_contains_marked, Hname. cbn [bind].
  destruct (name_marked s); [reflexivity|]. now rewrite Hcode.
Qed.

Lemma collect_cons (sort_values : list Bar -> list Bar)
    (names : VolumeBottom.names_dict) (f : string * outcome DataFrame)
    (rest : list (string * outcome DataFrame)) :
  VolumeBottomBatch.collect sort_values names (f :: rest)
  = (result <- VolumeBottom.analyze_stock_file sort_values names
                 (fst f) (snd f) ;;
     results <- VolumeBottomBatch.collect sort_values names rest ;;
     Return (match result with
             | Some v => v :: results
             | None => results
             end))%py.
Proof. now destruct f. Qed.

Lemma collect_results (sort_values : list Bar -> list Bar)
    (names : VolumeBottom.names_dict)
    (files : list (string * outcome DataFrame)) :
  (forall f, In f files ->
     exists s,
       VolumeBottom.dict_get names (VolumeBottom.code_of (fst f))
         (VolumeBottom.NameStr VolumeBottom.UNKNOWN_NAME)
       = VolumeBottom.NameStr s) ->
  exists results,
    Forall2
      (fun f r =>
         VolumeBottom.analyze_stock_file sort_values names (fst f) (snd f)
         = Return r)
      files results
    /\ VolumeBottomBatch.collect sort_values names files
       = Return (DragonBack.not_none results).
Proof.
  induction files as [|f rest IH]; intros Hnames.
  - exists []. split; [constructor|reflexivity].
  - destruct IH as (results & Hall & Hrest).
    { intros g Hg. apply Hnames. now right. }
    destruct (VolumeBottom.analyze_stock_file sort_values names
                (fst f) (snd f)) as [r|e] eqn:E.
    + exists (r :: results). split; [now constructor|].
      rewrite collect_cons, E, Hrest. cbn [bind]. now destruct r.
    + exfalso. apply analyze_stock_file_raises in E.
      destruct E as (_ & Hnan & _).
      destruct (Hnames f) as (s & Hs); [now left|]. congruence.
Qed.

Lemma filtered_files_In (all_files : list (string * outcome DataFrame))
    (f : string * outcome DataFrame) :
  In f (VolumeBottomBatch.filtered_files all_files)
  <-> In f all_files
      /\ (startswith (VolumeBottom.code_of (fst f)) "60"
          || startswith (VolumeBottom.code_of (fst f)) "00") = true.
Proof. unfold VolumeBottomBatch.filtered_files. apply filter_In. Qed.

Lemma collect_filtered (sort_values : list Bar -> list Bar)
    (names : VolumeBottom.names_dict)
    (all_files : list (string * outcome DataFrame)) :
  (forall f, In f all_files ->
     exists s,
       VolumeBottom.dict_get names (VolumeBottom.code_of (fst f))
         (VolumeBottom.NameStr VolumeBottom.UNKNOWN_NAME)
       = VolumeBottom.NameStr s) ->
  VolumeBottomBatch.collect sort_values names
    (VolumeBottomBatch.filtered_files all_files)
  = VolumeBottomBatch.collect sort_values names all_files.
Proof.
  induction all_files as [|f rest IH]; intros Hnames; [reflexivity|].
  assert (Hrest : VolumeBottomBatch.collect sort_values names
                    (VolumeBottomBatch.filtered_files rest)
                  = VolumeBottomBatch.collect sort_values names rest).
  { apply IH. intros g Hg. apply Hnames. now right. }
  unfold VolumeBottomBatch.filtered_files in *. cbn [filter].
  destruct (startswith (VolumeBottom.code_of (fst f)) "60"
            || startswith (VolumeBottom.code_of (fst f)) "00") eqn:E.
  - now rewrite !collect_cons, Hrest.
  - destruct (Hnames f) as (s & Hs); [now left|].
    rewrite collect_cons.
    rewrite (analyze_stock_file_other_code _ _ _ _ _ E Hs). cbn [bind].
    rewrite Hrest.
    now destruct (VolumeBottomBatch.collect sort_values names rest).
Qed.

Lemma scan_verdicts (sort_values : list Bar -> list Bar)
    (names : VolumeBottom.names_dict)
    (all_files : list (string * outcome DataFrame)) :
  (forall f, In f all_files ->
     exists s,
       VolumeBottom.dict_get names (VolumeBottom.code_of (fst f))
         (VolumeBottom.NameStr VolumeBottom.UNKNOWN_NAME)
       = VolumeBottom.NameStr s) ->
  exists results,
    VolumeBottomBatch.scan sort_values names all_files = Return results
    /\ VolumeBottomBatch.collect sort_values names all_files = Return results
    /\ List.length results <= List.length all_files
    /\ forall v,
         In v results
         <-> exists f,
               In f all_files
               /\ VolumeBottom.analyze_stock_file sort_values names
                    (fst f) (snd f) = Return (Some v).
Proof.
  intros Hnames.
  destruct (collect_results sort_values names all_files Hnames)
    as (results & Hall & Hcollect).
  exists (DragonBack.not_none results).
  split; [unfold VolumeBottomBatch.scan; now rewrite collect_filtered|].
  split; [exact Hcollect|]. split.
  - rewrite (Forall2_length Hall). clear.
    induction results as [|[v|] t IH]; cbn; lia.
  - intros v. rewrite In_not_none. split.
    + intros Hv. destruct (Forall2_In_r _ _ _ _ Hall Hv) as (f & Hf & Hfv).
      exists f. auto.
    + intros (f & Hf & Hfv).
      destruct (Forall2_In_l _ _ _ _ Hall Hf) as (r & Hr & Hfr).
      congruence.
Qed.

(** X19. The scan of [main] when every file has a string for a name: it
    raises nothing; the files left out by the filter on the code would
    have got no verdict, so the result is the one of the loop over all
    the files, completing in the same order; and the verdicts collected
    are those [analyze_stock_file] returns for the files, no more than one
    per file.  In the files that pass the filter no code starts with 30:
    the first rule of [analyze_stock_file] never fires in the scan. *)
Theorem scan_collects_the_verdicts_of_the_files
    (sort_values : list Bar -> list Bar) (names : VolumeBottom.names_dict)
    (all_files : list (string * outcome DataFrame)) :
  (forall f, In f all_files ->
     exists s,
       VolumeBottom.dict_get names (VolumeBottom.code_of (fst f))
         (VolumeBottom.NameStr VolumeBottom.UNKNOWN_NAME)
       = VolumeBottom.NameStr s) ->
  (exists results,
     VolumeBottomBatch.scan sort_values names all_files = Return results
     /\ VolumeBottomBatch.collect sort_values names all_files = Return results
     /\ List.length results <= List.length all_files
     /\ forall v,
          In v results
          <-> exists f,
                In f all_files
                /\ VolumeBottom.analyze_stock_file sort_values names
                     (fst f) (snd f) = Return (Some v))
  /\ forall f,
       In f (VolumeBottomBatch.filtered_files all_files) ->
       startswith (VolumeBottom.code_of (fst f)) "30" = false.
Proof.
  intros Hnames. split; [now apply scan_verdicts|].
  intros f Hf. apply filtered_files_In in Hf.
  now apply startswith_60_00_not_30.
Qed.

Lemma scan_collects_the_verdicts_of_the_files_witness :
  exists results,
    VolumeBottomBatch.scan VolumeBottom.stable_sort_by_date []
      [("stock_data/300001.csv"%string, Return (frame_of bars_120));
       ("stock_data/600000.csv"%string, Return (frame_of bars_120))]
    = Return results
    /\ List.length results <= 2.
Proof.
  destruct (scan_collects_the_verdicts_of_the_files
              VolumeBottom.stable_sort_by_date []
              [("stock_data/300001.csv"%string, Return (frame_of bars_120));
               ("stock_data/600000.csv"%string, Return (frame_of bars_120))])
    as [(results & Hscan & _ & Hlen & _) _].
  - intros f _. exists VolumeBottom.UNKNOWN_NAME. reflexivity.
  - exists results. split; [exact Hscan|exact Hlen].
Defined.



Lemma dict_get_string (d : VolumeBottom.names_dict) (key : string) :
  (forall row, In row d -> exists s, snd row = VolumeBottom.NameStr s) ->
  exists s,
    VolumeBottom.dict_get d key (VolumeBottom.NameStr VolumeBottom.UNKNOWN_NAME)
    = VolumeBottom.NameStr s.
Proof.
  induction d as [|[k v] t IH]; intros H; cbn.
  - eauto.
  - destruct (String.eqb k key).
    + apply (H (k, v)). now left.
    + apply IH. intros row Hrow. apply H. now right.
Qed.

Lemma load_stock_names_cells (names_csv : outcome VolumeBottomMain.NamesFrame)
    (d : VolumeBottom.names_dict) :
  VolumeBottomMain.load_stock_names names_csv = Return d ->
  forall row,
    In row d ->
    exists names_df row',
      names_csv = Return names_df
      /\ VolumeBottomMain.n_columns names_df = 2
      /\ In row' (VolumeBottomMain.name_rows names_df)
      /\ row = (zfill 6 (strip (fst row')), snd row').
Proof.
  unfold VolumeBottomMain.load_stock_names,
    VolumeBottomMain.load_stock_names_body, try_except.
  destruct names_csv as [names_df|e]; cbn [bind];
    [|intros [= <-] row []].
  destruct (VolumeBottomMain.n_columns names_df =? 2) eqn:E;
    [|intros [= <-] row []].
  intros [= <-] row Hrow. rewrite to_dict_rev in Hrow.
  apply in_rev, in_map_iff in Hrow. destruct Hrow as (row' & <- & Hrow').
  exists names_df, row'. apply Nat.eqb_eq in E. auto.
Qed.

(** X21. [main] of the scanner, given a data directory with a CSV file in
    it and a names file whose Name cells are all strings: it raises
    nothing and writes a result file, empty or not, with the verdicts of
    the scan under the dictionary of [load_stock_names].  When the names
    file cannot be read or has not two columns the scan goes on with an
    empty dictionary: every verdict then carries the default name, and no
    stock is left out for its name. *)
Theorem main_writes_the_scan_under_the_loaded_names
    (sort_values : list Bar -> list Bar)
    (all_files : list (string * outcome DataFrame))
    (names_csv : outcome VolumeBottomMain.NamesFrame) :
  all_files <> [] ->
  (forall names_df row,
     names_csv = Return names_df ->
     In row (VolumeBottomMain.name_rows names_df) ->
     exists s, snd row = VolumeBottom.NameStr s) ->
  exists d results,
    VolumeBottomMain.load_stock_names names_csv = Return d
    /\ VolumeBottomMain.main sort_values (Some all_files) names_csv
       = Return (Some results)
    /\ VolumeBottomBatch.scan sort_values d all_files = Return results
    /\ ((forall names_df,
           names_csv = Return names_df ->
           VolumeBottomMain.n_columns names_df <> 2) ->
        d = []
        /\ VolumeBottomBatch.collect sort_values [] all_files = Return results
        /\ forall v, In v results ->
             VolumeBottom.Name v
             = VolumeBottom.NameStr VolumeBottom.UNKNOWN_NAME).
Proof.
  intros Hfiles Hcells.
  destruct (VolumeBottomMain.load_stock_names names_csv) as [d|e] eqn:Eload.
  2:{ exfalso. unfold VolumeBottomMain.load_stock_names, try_except in Eload.
      destruct (VolumeBottomMain.load_stock_names_body names_csv);
        discriminate. }
  assert (Hnames : forall f : string * outcome DataFrame,
            In f all_files ->
            exists s,
              VolumeBottom.dict_get d (VolumeBottom.code_of (fst f))
                (VolumeBottom.NameStr VolumeBottom.UNKNOWN_NAME)
              = VolumeBottom.NameStr s).
  { intros f _. apply dict_get_string. intros row Hrow.
    destruct (load_stock_names_cells _ _ Eload row Hrow)
      as (names_df & row' & Hcsv & _ & Hrow' & ->).
    cbn [snd]. exact (Hcells names_df row' Hcsv Hrow'). }
  destruct (scan_verdicts sort_values d all_files Hnames)
    as (results & Hscan & Hcollect & _ & Hin).
  exists d, results. split; [reflexivity|]. split.
  { unfold VolumeBottomMain.main. destruct all_files; [congruence|].
    rewrite Eload. cbn [bind]. rewrite Hscan. reflexivity. }
  split; [exact Hscan|]. intros Hcols.
  assert (Hd : d = []).
  { destruct d as [|row t]; [reflexivity|]. exfalso.
    destruct (load_stock_names_cells _ _ Eload row)
      as (names_df & _ & Hcsv & H2 & _); [now left|].
    exact (Hcols names_df Hcsv H2). }
  subst d. split; [reflexivity|]. split; [exact Hcollect|].
  intros v Hv. apply Hin in Hv. destruct Hv as (f & _ & Hfv).
  apply analyze_stock_file_Some in Hfv. cbv zeta in Hfv.
  destruct Hfv as (_ & _ & _ & df & _ & _ & _ & Hv).
  apply screen_B_Some in Hv. cbv zeta in Hv. destruct Hv as (-> & _).
  reflexivity.
Qed.

Lemma main_writes_the_scan_under_the_loaded_names_witness :
  VolumeBottomMain.main VolumeBottom.stable_sort_by_date
    (Some [("stock_data/600000.csv"%string, Return (frame_of bars_120))])
    (Raise OSError)
  = Return (Some [verdict_120]).
Proof.
  destruct (main_writes_the_scan_under_the_loaded_names
              VolumeBottom.stable_sort_by_date
              [("stock_data/600000.csv"%string, Return (frame_of bars_120))]
              (Raise OSError))
    as (d & results & _ & Hmain & _ & Hempty).
  - discriminate.
  - discriminate.
  - rewrite Hmain. destruct Hempty as (_ & Hcollect & _); [discriminate|].
    vm_compute in Hcollect. injection Hcollect as <-. reflexivity.
Defined.

(* ================================================================== *)
(** ** dragon_back_strategy: the unit of volume *)

Lemma last_map_nonempty {A B : Type} (f : A -> B) (l : list A) (d : A)
    (d' : B) :
  l <> [] -> last (map f l) d' = f (last l d).
Proof.
  induction l as [|a t IH]; intros H; [congruence|].
  destruct t as [|b t']; [reflexivity|].
  change (last (map f (b :: t')) d' = f (last (b :: t') d)).
  apply IH. discriminate.
Qed.

Lemma nth_map_inside {A B : Type} (f : A -> B) (l : list A) (i : nat)
    (d : A) (d' : B) :
  i < List.length l -> nth i (map f l) d' = f (nth i l d).
Proof.
  intros H. rewrite (nth_indep (map f l) d' (f d)).
  - apply map_nth.
  - now rewrite length_map.
Qed.

Lemma Qlt_bool_scaled (k a b : Q) :
  (0 < k)%Q -> Qlt_bool (k * a) (k * b) = Qlt_bool a b.
Proof.
  intros Hk. destruct (Qlt_bool a b) eqn:E.
  - apply Qlt_bool_iff. apply Qlt_bool_iff in E. now apply Qmult_lt_l.
  - apply Qlt_bool_false_iff. apply Qlt_bool_false_iff in E.
    now apply Qmult_le_l.
Qed.

Lemma is_first_max_scaled (k : Q) (l : list Q) (i : nat) :
  (0 < k)%Q -> is_first_max l i -> is_first_max (map (Qmult k) l) i.
Proof.
  intros Hk (Hi & Hmax & Hfirst). unfold is_first_max.
  rewrite length_map. split; [exact Hi|]. split.
  - intros j Hj. rewrite !(nth_map_inside (Qmult k) l _ 0%Q) by lia.
    specialize (Hmax j Hj). now apply Qmult_le_l.
  - intros j Hj. rewrite !(nth_map_inside (Qmult k) l _ 0%Q) by lia.
    specialize (Hfirst j Hj). now apply Qmult_lt_l.
Qed.

Lemma reference_day_scaled (k : Q) (bars : list Bar) (ref : Bar) :
  (0 < k)%Q -> reference_day bars ref ->
  reference_day (map (in_volume_unit k) bars) (in_volume_unit k ref).
Proof.
  intros Hk (i & Hmax & Href). exists i. unfold window in *.
  rewrite lastn_map, map_map. split.
  - rewrite <- (map_map volume (Qmult k)). now apply is_first_max_scaled.
  - rewrite nth_error_map, Href. reflexivity.
Qed.

Lemma volume_ratio_scaled (k v r : Q) :
  (0 < k)%Q ->
  flt (volume_ratio (k * v) (k * r)) (Fin (1 # 2))
  = flt (volume_ratio v r) (Fin (1 # 2)).
Proof.
  intros Hk. unfold volume_ratio, fdiv.
  destruct (Qeq_bool r 0) eqn:E.
  - apply Qeq_bool_iff in E.
    assert (E' : Qeq_bool (k * r) 0 = true)
      by (apply Qeq_bool_iff; rewrite E; ring).
    rewrite E'. unfold signed_inf.
    assert (Hsign : (k * v ?= 0)%Q = (v ?= 0)%Q).
    { destruct (v ?= 0)%Q eqn:Ev.
      - apply Qeq_alt in Ev. apply Qeq_alt. rewrite Ev. ring.
      - apply Qlt_alt in Ev. apply Qlt_alt.
        rewrite <- (Qmult_0_r k). now apply Qmult_lt_l.
      - apply Qgt_alt in Ev. apply Qgt_alt.
        rewrite <- (Qmult_0_r k). now apply Qmult_lt_l. }
    now rewrite Hsign.
  - assert (Hr : ~ (r == 0)%Q).
    { intros H. apply Qeq_bool_iff in H. congruence. }
    assert (E' : Qeq_bool (k * r) 0 = false).
    { destruct (Qeq_bool (k * r) 0) eqn:E'; [|reflexivity].
      apply Qeq_bool_iff in E'. exfalso. apply Hr.
      apply (Qmult_integral k r) in E'. destruct E' as [E'|E']; [|exact E'].
      rewrite E' in Hk. discriminate Hk. }
    rewrite E'. cbn [flt].
    assert (Hsame : (k * v / (k * r) == v / r)%Q) by (field; split; auto; lra).
    destruct (Qlt_bool (v / r) (1 # 2)) eqn:El.
    + apply Qlt_bool_iff. apply Qlt_bool_iff in El. now rewrite Hsame.
    + apply Qlt_bool_false_iff. apply Qlt_bool_false_iff in El.
      now rewrite Hsame.
Qed.

Lemma screen_A_scaled (file_path : string) (k : Q) (bars : list Bar)
    (ref : Bar) :
  (0 < k)%Q -> 2 <= List.length bars ->
  screen_A file_path (map (in_volume_unit k) bars) (in_volume_unit k ref)
  = screen_A file_path bars ref.
Proof.
  intros Hk Hlen.
  assert (Hlatest : latest (map (in_volume_unit k) bars)
                    = in_volume_unit k (latest bars)).
  { unfold latest. apply last_map_nonempty. destruct bars; [|discriminate].
    cbn in Hlen. lia. }
  assert (Hprevious : previous (map (in_volume_unit k) bars)
                      = in_volume_unit k (previous bars)).
  { unfold previous. rewrite length_map. apply nth_map_inside. lia. }
  assert (Hsma : sma5 (map (in_volume_unit k) bars) = sma5 bars).
  { unfold sma5, window. now rewrite lastn_map, map_map. }
  unfold screen_A. rewrite Hlatest, Hprevious, Hsma.
  cbn [in_volume_unit close open volume].
  rewrite (volume_ratio_scaled k _ _ Hk), (Qlt_bool_scaled k _ _ Hk).
  reflexivity.
Qed.

(** X22. The unit of volume is immaterial to Profile A: volume enters
    [analyze_stock] through the place of the greatest volume, the ratio to
    it and the comparison with the day before, so a file whose volumes are
    all multiplied by the same positive number gets the same result. *)
Theorem volume_unit_is_immaterial_to_analyze_stock
    (file_path : string) (k : Q) (bars : list Bar) :
  (0 < k)%Q ->
  DragonBack.analyze_stock file_path
    (Return (frame_of (map (in_volume_unit k) bars)))
  = DragonBack.analyze_stock file_path (Return (frame_of bars)).
Proof.
  intros Hk. destruct (Nat.ltb (List.length bars) 30) eqn:E.
  - unfold DragonBack.analyze_stock, DragonBack.analyze_stock_body.
    cbn [bind]. unfold len, frame_of. cbn [rows].
    rewrite length_map. unfold Nat.ltb in *. now rewrite E.
  - apply Nat.ltb_ge in E.
    destruct (analyze_stock_numeric file_path (frame_of bars))
      as (ref & Href & ->); [apply frame_of_numeric|exact E|].
    destruct (analyze_stock_numeric file_path
                (frame_of (map (in_volume_unit k) bars)))
      as (ref' & Href' & ->);
      [apply frame_of_numeric|unfold len; cbn; now rewrite length_map|].
    cbn [frame_of rows] in *.
    rewrite (reference_day_unique _ _ _ Href'
               (reference_day_scaled k bars ref Hk Href)).
    rewrite screen_A_scaled by (assumption || lia). reflexivity.
Qed.

Lemma volume_unit_is_immaterial_to_analyze_stock_witness :
  DragonBack.analyze_stock "stock_data/600000.csv"
    (Return (frame_of (map (in_volume_unit 100) bars_80)))
  = Return (Some verdict_80).
Proof.
  rewrite (volume_unit_is_immaterial_to_analyze_stock
             "stock_data/600000.csv" 100 bars_80).
  - vm_compute. reflexivity.
  - reflexivity.
Defined.

(* ================================================================== *)
(** ** volume_bottom_scanner: the whole rule *)



(* ================================================================== *)
(** ** dragon_back_strategy: the date column *)

Section SamePrices.
Variable g : Bar -> Bar.
Hypothesis g_open : forall b, open (g b) = open b.
Hypothesis g_close : forall b, close (g b) = close b.
Hypothesis g_volume : forall b, volume (g b) = volume b.




End SamePrices.




(* ================================================================== *)
(** ** volume_bottom_scanner: a day without trading *)



